(** * SixtySecondsWorld: a shallow embedding of the news-digest plugin

    The plugin ([plugins.v2/sixtyseconds/__init__.py]) fetches a JSON
    envelope from a fixed endpoint, caches its [data] field, renders the
    cache into two widget trees and optionally posts a notification.

    Python values are embedded as the inductive [pyval]; a method that can
    raise returns a [Result]; a method that mutates the plugin or talks to
    the host (logger, messaging, scheduler) is a function on [State].
    Library facilities that are not part of the repository (the cron
    parser, [repr] of floats and strings) are the fields of [Host].
    Every method is embedded from its text; the text of [get_dashboard]
    does not parse, and is embedded as the error it is. *)

From Stdlib Require Import String Ascii List ZArith Bool Lia DecimalString Floats.
Import ListNotations.
Open Scope string_scope.
Open Scope Z_scope.

(** ** Python values *)

Set Warnings "-register-all".

Inductive pyval : Type :=
| PNone
| PBool (b : bool)
| PInt (z : Z)
| PFloat (f : float)
| PStr (s : string)
| PList (l : list pyval)
| PDict (d : list (string * pyval)).

(** Exceptions: every one modelled here is a subclass of [Exception]. *)
Inductive exn_kind :=
  AttributeError | TypeError | ValueError | RequestError | SyntaxError.

Record exn := Exn { kind : exn_kind; exn_msg : string }.

Inductive Result (A : Type) : Type :=
| Ok (a : A)
| Raise (e : exn).
Arguments Ok {A} a.
Arguments Raise {A} e.

Definition rbind {A B} (r : Result A) (k : A -> Result B) : Result B :=
  match r with
  | Ok a => k a
  | Raise e => Raise e
  end.

Definition rmap {A B} (f : A -> B) (r : Result A) : Result B :=
  rbind r (fun a => Ok (f a)).

Declare Scope result_scope.
Notation "x <- c ;; k" := (rbind c (fun x => k))
  (at level 100, c at next level, right associativity) : result_scope.
Open Scope result_scope.

Definition nl : string := String "010"%char "".

Definition type_name (v : pyval) : string :=
  match v with
  | PNone => "NoneType"
  | PBool _ => "bool"
  | PInt _ => "int"
  | PFloat _ => "float"
  | PStr _ => "str"
  | PList _ => "list"
  | PDict _ => "dict"
  end.

(** [bool(v)]. *)
Definition truthy (v : pyval) : bool :=
  match v with
  | PNone => false
  | PBool b => b
  | PInt z => negb (z =? 0)
  | PFloat f => negb (PrimFloat.eqb f 0%float)
  | PStr s => negb (s =? "")%string
  | PList l => match l with [] => false | _ => true end
  | PDict d => match d with [] => false | _ => true end
  end.

(** A dict is an association list in insertion order; the first binding
    of a key is the one a lookup sees. *)
Fixpoint assoc (k : string) (d : list (string * pyval)) : option pyval :=
  match d with
  | [] => None
  | (k', v) :: d' => if (k =? k')%string then Some v else assoc k d'
  end.

(** [v.get(k, dflt)]: only dicts have the method. *)
Definition py_get (v : pyval) (k : string) (dflt : pyval) : Result pyval :=
  match v with
  | PDict d => Ok (match assoc k d with Some x => x | None => dflt end)
  | _ => Raise (Exn AttributeError
                 ("'" ++ type_name v ++ "' object has no attribute 'get'"))
  end.

(** A [str] is held as the bytes of its UTF-8 encoding; [utf8_chars]
    splits it into its code points (a continuation byte [10xxxxxx] stays
    with the byte before it). *)
Definition is_cont (c : ascii) : bool :=
  match c with
  | Ascii _ _ _ _ _ _ false true => true
  | _ => false
  end.

Definition starts_cont (s : string) : bool :=
  match s with
  | String c _ => is_cont c
  | EmptyString => false
  end.

Fixpoint utf8_chars (s : string) : list string :=
  match s with
  | EmptyString => []
  | String c r =>
      match utf8_chars r with
      | h :: t =>
          if starts_cont r then String c h :: t else String c "" :: h :: t
      | [] => [String c ""]
      end
  end.

(** [iter(v)], as [enumerate] and [for] use it. *)
Definition py_iter (v : pyval) : Result (list pyval) :=
  match v with
  | PList l => Ok l
  | PStr s => Ok (map PStr (utf8_chars s))
  | PDict d => Ok (map (fun kv => PStr (fst kv)) d)
  | _ => Raise (Exn TypeError
                 ("'" ++ type_name v ++ "' object is not iterable"))
  end.

(** [v[:n]].  Slicing a dict raises ([TypeError] up to Python 3.11). *)
Definition py_slice (v : pyval) (n : nat) : Result pyval :=
  match v with
  | PList l => Ok (PList (firstn n l))
  | PStr s => Ok (PStr (String.concat "" (firstn n (utf8_chars s))))
  | PDict _ => Raise (Exn TypeError "unhashable type: 'slice'")
  | _ => Raise (Exn TypeError
                 ("'" ++ type_name v ++ "' object is not subscriptable"))
  end.

(** [v == 200]: an int, a bool (as 0 or 1) or a float can equal an int. *)
Definition py_eq_200 (v : pyval) : bool :=
  match v with
  | PInt z => z =? 200
  | PFloat f => PrimFloat.eqb f 200%float
  | _ => false
  end.

Definition py_eq_str (v : pyval) (s : string) : bool :=
  match v with
  | PStr t => (t =? s)%string
  | _ => false
  end.

(** [enumerate(l)] with the running index. *)
Fixpoint enumerate_from {A} (i : nat) (l : list A) : list (nat * A) :=
  match l with
  | [] => []
  | x :: l' => (i, x) :: enumerate_from (S i) l'
  end.

Definition enumerate {A} (l : list A) : list (nat * A) := enumerate_from 0 l.

Definition str_of_Z (z : Z) : string := NilZero.string_of_int (Z.to_int z).

(** ** The host's side *)

Inductive log_level := INFO | ERROR.

(** [app.schemas.NotificationType]: the plugin uses [SiteMessage] only. *)
Inductive NotificationType := SiteMessage | PluginMessage | OtherMessage.

Record Notification := Notify
  { mtype : NotificationType; title : string; text : string }.

(** What [RequestUtils.get_res] hands back: the status, the outcome of
    [res.json()] and the raw body. *)
Record Response := mkResponse
  { status_code : Z; json : Result pyval; res_text : string }.

(** [bool(res)] is [res.ok] in the HTTP library: false on 4xx and 5xx. *)
Definition Response_bool (r : Response) : bool :=
  negb ((400 <=? status_code r) && (status_code r <? 600)).

(** One run of the outside world as a fetch sees it: the outcome of the
    GET ([Ok None] is "no response") and the clock. *)
Record Env := mkEnv { http : Result (option Response); now : Z }.

(** The configuration dict the host hands over: the five keys the
    plugin reads, each [None] when absent, and the entries under any
    other key. *)
Record Config := mkConfig
  { cfg_enabled : option bool;
    cfg_cron : option string;
    cfg_notify : option bool;
    cfg_onlyonce : option bool;
    cfg_cover : option bool;
    cfg_extra : list (string * pyval) }.

(** [bool(config)]: a dict is true when it has any entry at all. *)
Definition Config_bool (c : Config) : bool :=
  match c with
  | mkConfig None None None None None [] => false
  | _ => true
  end.

Definition SIXTY_SECONDS_API : string := "https://60s-api.viki.moe/v2/60s".

(** What the plugin takes from libraries outside the repository: the cron
    parser of the scheduling library with its trigger type, and [repr] of
    a float and of a str. *)
Class Host := mkHost
  { CronTrigger : Type;
    from_crontab : string -> Result CronTrigger;
    float_repr : float -> string;
    str_repr : string -> string }.

Section Plugin.

Context {host : Host}.

Fixpoint py_repr (v : pyval) : string :=
  match v with
  | PNone => "None"
  | PBool b => if b then "True" else "False"
  | PInt z => str_of_Z z
  | PFloat f => float_repr f
  | PStr s => str_repr s
  | PList l => "[" ++ String.concat ", " (map py_repr l) ++ "]"
  | PDict d =>
      "{" ++ String.concat ", "
               (map (fun kv => let '(k, x) := kv in
                               str_repr k ++ ": " ++ py_repr x) d) ++ "}"
  end.

(** [str(v)], which is what an f-string field [{v}] inserts. *)
Definition py_str (v : pyval) : string :=
  match v with
  | PStr s => s
  | _ => py_repr v
  end.

Record Job := mkJob { job_name : string; job_trigger : CronTrigger }.

Record Scheduler := mkScheduler { jobs : list Job; running : bool }.

(** The plugin instance together with what it has written to the host:
    the log, the posted notifications, the system messages and the
    configurations saved with [update_config]. *)
Record State := mkState
  { _enabled : bool;
    _cron : string;
    _notify : bool;
    _onlyonce : bool;
    _cover : bool;
    _last_update : option Z;
    _scheduler : option Scheduler;
    _data : pyval;
    log : list (log_level * string);
    outbox : list Notification;
    systemmessage : list string;
    saved_config : list Config }.

Definition set_data (v : pyval) (st : State) : State :=
  mkState (_enabled st) (_cron st) (_notify st) (_onlyonce st) (_cover st)
          (_last_update st) (_scheduler st) v
          (log st) (outbox st) (systemmessage st) (saved_config st).

Definition set_last_update (t : option Z) (st : State) : State :=
  mkState (_enabled st) (_cron st) (_notify st) (_onlyonce st) (_cover st)
          t (_scheduler st) (_data st)
          (log st) (outbox st) (systemmessage st) (saved_config st).

Definition set_scheduler (s : option Scheduler) (st : State) : State :=
  mkState (_enabled st) (_cron st) (_notify st) (_onlyonce st) (_cover st)
          (_last_update st) s (_data st)
          (log st) (outbox st) (systemmessage st) (saved_config st).

Definition set_cover (b : bool) (st : State) : State :=
  mkState (_enabled st) (_cron st) (_notify st) (_onlyonce st) b
          (_last_update st) (_scheduler st) (_data st)
          (log st) (outbox st) (systemmessage st) (saved_config st).

Definition set_onlyonce (b : bool) (st : State) : State :=
  mkState (_enabled st) (_cron st) (_notify st) b (_cover st)
          (_last_update st) (_scheduler st) (_data st)
          (log st) (outbox st) (systemmessage st) (saved_config st).

Definition logger (lv : log_level) (m : string) (st : State) : State :=
  mkState (_enabled st) (_cron st) (_notify st) (_onlyonce st) (_cover st)
          (_last_update st) (_scheduler st) (_data st)
          (log st ++ [(lv, m)]) (outbox st) (systemmessage st)
          (saved_config st).

Definition post_message (n : Notification) (st : State) : State :=
  mkState (_enabled st) (_cron st) (_notify st) (_onlyonce st) (_cover st)
          (_last_update st) (_scheduler st) (_data st)
          (log st) (outbox st ++ [n]) (systemmessage st) (saved_config st).

Definition systemmessage_put (m : string) (st : State) : State :=
  mkState (_enabled st) (_cron st) (_notify st) (_onlyonce st) (_cover st)
          (_last_update st) (_scheduler st) (_data st)
          (log st) (outbox st) (systemmessage st ++ [m]) (saved_config st).

Definition update_config (c : Config) (st : State) : State :=
  mkState (_enabled st) (_cron st) (_notify st) (_onlyonce st) (_cover st)
          (_last_update st) (_scheduler st) (_data st)
          (log st) (outbox st) (systemmessage st) (saved_config st ++ [c]).

(** *** [__send_notify] *)

(** [f"{idx+1}. {news}\n"] *)
Definition notify_line (p : nat * pyval) : string :=
  str_of_Z (Z.of_nat (fst p) + 1) ++ ". " ++ py_str (snd p) ++ nl.

(** The message assembled from the cache, in the order the source
    evaluates its parts. *)
Definition notify_message (d : pyval) : Result string :=
  date <- py_get d "date" (PStr "") ;;
  tip <- py_get d "tip" (PStr "") ;;
  news <- py_get d "news" (PList []) ;;
  head <- py_slice news 5 ;;
  items <- py_iter head ;;
  link <- py_get d "link" (PStr "") ;;
  Ok ("【60秒读懂世界 · " ++ py_str date ++ "】" ++ nl
      ++ py_str tip ++ nl ++ nl
      ++ String.concat "" (map notify_line (enumerate items))
      ++ nl ++ "查看详情: " ++ py_str link).

Definition __send_notify (st : State) : State * Result unit :=
  if negb (truthy (_data st)) then (st, Ok tt)
  else
    match notify_message (_data st) with
    | Ok m => (post_message (Notify SiteMessage "60秒读懂世界" m) st, Ok tt)
    | Raise e => (st, Raise e)
    end.

(** *** [__fetch_data] *)

(** [res.text if res else '无响应'] *)
Definition failure_text (res : option Response) : string :=
  match res with
  | Some r => if Response_bool r then res_text r else "无响应"
  | None => "无响应"
  end.

(** [res and res.status_code == 200] *)
Definition response_ok (res : option Response) : bool :=
  match res with
  | Some r => Response_bool r && (status_code r =? 200)
  | None => false
  end.

Definition fetch_failed (res : option Response) (st : State)
  : State * Result bool :=
  (logger ERROR ("获取60秒读懂世界数据失败: " ++ failure_text res) st,
   Ok false).

(** The body of the [try] block, without its [return False] tail. *)
Definition fetch_try (env : Env) (st : State) : State * Result bool :=
  let st := logger INFO "开始获取60秒读懂世界数据..." st in
  match http env with
  | Raise e => (st, Raise e)
  | Ok res =>
      if response_ok res then
        match res with
        | None => fetch_failed res st
        | Some r =>
            match json r with
            | Raise e => (st, Raise e)
            | Ok data =>
                match py_get data "code" PNone with
                | Raise e => (st, Raise e)
                | Ok code =>
                    if py_eq_200 code then
                      match py_get data "data" (PDict []) with
                      | Raise e => (st, Raise e)
                      | Ok d =>
                          let st := set_data d st in
                          let st := set_last_update (Some (now env)) st in
                          let (st, sent) :=
                            if _notify st then __send_notify st
                            else (st, Ok tt) in
                          match sent with
                          | Raise e => (st, Raise e)
                          | Ok _ =>
                              (logger INFO "60秒读懂世界数据获取成功" st,
                               Ok true)
                          end
                      end
                    else fetch_failed res st
                end
            end
        end
      else fetch_failed res st
  end.

(** The whole method: [except Exception] logs and falls through to
    [return False]. *)
Definition __fetch_data (env : Env) (st : State) : State * Result bool :=
  match fetch_try env st with
  | (st', Ok b) => (st', Ok b)
  | (st', Raise e) =>
      (logger ERROR ("获取60秒读懂世界数据异常: " ++ exn_msg e) st',
       Ok false)
  end.

(** *** [get_page] *)

Definition no_data_placeholder : pyval :=
  PDict [("component", PStr "div");
         ("text", PStr "暂无数据");
         ("props", PDict [("class", PStr "text-center");
                          ("style", PStr "margin-top: 50px")])].

(** One entry of the page's news list, [f"{idx+1}. {item}"]. *)
Definition page_news_item (p : nat * pyval) : pyval :=
  PDict [("component", PStr "div");
         ("props", PDict [("class", PStr "mb-2")]);
         ("text", PStr (str_of_Z (Z.of_nat (fst p) + 1) ++ ". "
                        ++ py_str (snd p)))].

Definition page_cover (src : pyval) : pyval :=
  PDict [("component", PStr "VImg");
         ("props", PDict [("src", src);
                          ("max-width", PStr "100%");
                          ("class", PStr "mb-4")])].

Definition page_card (date tip img : pyval) (items : list pyval)
           (link : pyval) : pyval :=
  PDict
    [("component", PStr "VCard");
     ("content", PList
        [PDict
           [("component", PStr "div");
            ("props", PDict [("class", PStr "pa-4")]);
            ("content", PList
               [PDict [("component", PStr "div");
                       ("props", PDict [("class", PStr "text-h5 mb-2")]);
                       ("text", PStr ("60秒读懂世界 · " ++ py_str date))];
                PDict [("component", PStr "div");
                       ("props", PDict [("class", PStr "text-caption mb-3")]);
                       ("text", tip)];
                img;
                PDict [("component", PStr "div");
                       ("content",
                        PList (map page_news_item (enumerate items)))];
                PDict [("component", PStr "div");
                       ("props", PDict [("class", PStr "mt-4")]);
                       ("content", PList
                          [PDict [("component", PStr "a");
                                  ("props", PDict
                                     [("href", link);
                                      ("target", PStr "_blank");
                                      ("class", PStr "text-decoration-none")]);
                                  ("text", PStr "查看详情")]])]])]])].

Definition get_page (st : State) : Result (list pyval) :=
  let d := _data st in
  if negb (truthy d) then Ok [no_data_placeholder]
  else
    date <- py_get d "date" (PStr "") ;;
    tip <- py_get d "tip" (PStr "") ;;
    img <- (if _cover st
            then (src <- py_get d "cover" (PStr "") ;; Ok (page_cover src))
            else Ok PNone) ;;
    news <- py_get d "news" (PList []) ;;
    items <- py_iter news ;;
    link <- py_get d "link" (PStr "") ;;
    Ok [page_card date tip img items link].

(** *** [get_dashboard]

    The text of this method does not parse: its return annotation
    (line 313) leaves a bracket open, and the parenthesis of [enumerate(]
    (line 386) meets the closing bracket of the list around it.  No call
    of it returns a value; the embedding gives it the one outcome Python
    has for such text. *)

Definition dashboard_syntax_error : exn :=
  Exn SyntaxError
      "closing parenthesis ']' does not match opening parenthesis '('".

Definition get_dashboard (st : State)
  : Result (option (pyval * pyval * list pyval)) :=
  Raise dashboard_syntax_error.

(** *** Life cycle: [stop_service], [init_plugin], [get_state],
    [get_service] *)

Definition stop_service (st : State) : State :=
  match _scheduler st with
  | Some _ => set_scheduler None st
  | None => st
  end.

Definition default_cron : string := "0 8 * * *".

Definition from_option {A} (d : A) (o : option A) : A :=
  match o with
  | Some a => a
  | None => d
  end.

(** The five [config.get(key, default)] assignments. *)
Definition load_config (c : Config) (st : State) : State :=
  mkState (from_option false (cfg_enabled c))
          (from_option default_cron (cfg_cron c))
          (from_option false (cfg_notify c))
          (from_option false (cfg_onlyonce c))
          (from_option true (cfg_cover c))
          (_last_update st) (_scheduler st) (_data st)
          (log st) (outbox st) (systemmessage st) (saved_config st).

Definition current_config (st : State) : Config :=
  mkConfig (Some (_enabled st)) (Some (_cron st)) (Some (_notify st))
           (Some false) (Some (_cover st)) [].

Definition add_job (j : Job) (s : Scheduler) : Scheduler :=
  mkScheduler (jobs s ++ [j]) (running s).

(** [if self._scheduler.get_jobs(): ... self._scheduler.start()] *)
Definition start_if_jobs (s : Scheduler) : Scheduler :=
  match jobs s with
  | [] => s
  | _ => mkScheduler (jobs s) true
  end.

(** The [try ... add_job ... except] of [init_plugin], run on the fresh
    scheduler. *)
Definition register_cron (s : Scheduler) (st : State) : Scheduler * State :=
  if negb (_cron st =? "")%string then
    match from_crontab (_cron st) with
    | Ok t => (add_job (mkJob "60秒读懂世界" t) s, st)
    | Raise e =>
        (s, systemmessage_put ("定时任务配置错误: " ++ exn_msg e)
              (logger ERROR ("定时任务配置错误: " ++ exn_msg e) st))
    end
  else (s, st).

Definition start_scheduler (st : State) : State :=
  if _enabled st then
    let (s, st) := register_cron (mkScheduler [] false) st in
    set_scheduler (Some (start_if_jobs s)) st
  else st.

Definition init_plugin (env : Env) (config : option Config) (st : State)
  : State * Result unit :=
  let st := stop_service st in
  let st := match config with
            | Some c => if Config_bool c then load_config c st else st
            | None => st
            end in
  let (st, ran) :=
    if _onlyonce st then
      let st := set_onlyonce false st in
      let st := update_config (current_config st) st in
      __fetch_data env st
    else (st, Ok false) in
  match ran with
  | Raise e => (st, Raise e)
  | Ok _ => (start_scheduler st, Ok tt)
  end.

Definition get_state (st : State) : bool := _enabled st.

Record Service := mkService
  { svc_id : string; svc_name : string; svc_trigger : CronTrigger }.

Definition get_service (st : State) : Result (list Service) :=
  if negb (_enabled st) then Ok []
  else
    trigger <- from_crontab (_cron st) ;;
    Ok [mkService "SixtySeconds" "60秒读懂世界定时服务" trigger].

(** *** [handle_action] *)

(** A host event; [event_data] is a dict or [None]. *)
Record Event := mkEvent { event_data : option (list (string * pyval)) }.

Definition is_plugin_action (event : option Event) : bool :=
  match event with
  | None => false
  | Some ev =>
      match event_data ev with
      | None => false
      | Some d =>
          truthy (PDict d)
          && py_eq_str (from_option PNone (assoc "action" d)) "sixty_seconds"
      end
  end.

Definition handle_action (env : Env) (event : option Event) (st : State)
  : State * Result unit :=
  if negb (is_plugin_action event) then (st, Ok tt)
  else
    let st := logger INFO "收到命令，获取60秒读懂世界数据..." st in
    match __fetch_data env st with
    | (st, Raise e) => (st, Raise e)
    | (st, Ok _) => if _notify st then __send_notify st else (st, Ok tt)
    end.

End Plugin.

(** ** Vocabulary of the specification *)

(** The Digest of the data model, and the JSON object that carries it. *)
Record Digest := mkDigest
  { date : string; tip : string; cover : string;
    news : list string; link : string }.

Definition digest_value (d : Digest) : pyval :=
  PDict [("date", PStr (date d));
         ("tip", PStr (tip d));
         ("cover", PStr (cover d));
         ("news", PList (map PStr (news d)));
         ("link", PStr (link d))].

(** Items numbered from [i], as ["i. item"]. *)
Fixpoint numbered (i : Z) (l : list string) : list string :=
  match l with
  | [] => []
  | x :: l' => (str_of_Z i ++ ". " ++ x) :: numbered (i + 1) l'
  end.

(** The texts a widget tree shows, in document order: the [text] entry of
    every node, through the [content] lists. *)
Fixpoint tree_texts (v : pyval) : list pyval :=
  match v with
  | PDict d =>
      flat_map (fun kv =>
                  let '(k, x) := kv in
                  if (k =? "text")%string then [x]
                  else if (k =? "content")%string then
                         match x with
                         | PList l => flat_map tree_texts l
                         | _ => []
                         end
                       else []) d
  | _ => []
  end.

Definition is_cover_image (v : pyval) : bool :=
  match v with
  | PDict d => py_eq_str (from_option PNone (assoc "component" d)) "VImg"
  | _ => false
  end.

(** The tree without its cover image elements: each is dropped from the
    [content] list that holds it. *)
Fixpoint remove_cover (v : pyval) : pyval :=
  match v with
  | PDict d =>
      PDict (map (fun kv =>
                    let '(k, x) := kv in
                    if (k =? "content")%string then
                      (k, match x with
                          | PList l =>
                              PList (flat_map
                                       (fun c => if is_cover_image c then []
                                                 else [remove_cover c]) l)
                          | _ => x
                          end)
                    else (k, x)) d)
  | _ => v
  end.

(** The tree with each cover image element replaced by [None] in place. *)
Fixpoint blank_cover (v : pyval) : pyval :=
  match v with
  | PDict d =>
      PDict (map (fun kv =>
                    let '(k, x) := kv in
                    if (k =? "content")%string then
                      (k, match x with
                          | PList l =>
                              PList (map
                                       (fun c => if is_cover_image c then PNone
                                                 else blank_cover c) l)
                          | _ => x
                          end)
                    else (k, x)) d)
  | _ => v
  end.

(** The place of the cover image in a tree: the image, or [None] when the
    cover flag is off. *)
Definition cover_slot (shown : bool) (image : pyval) : pyval :=
  if shown then image else PNone.

Definition is_dict (v : pyval) : bool :=
  match v with
  | PDict _ => true
  | _ => false
  end.

(** What [enumerate] accepts: a list, a str or a dict. *)
Definition iterable (v : pyval) : bool :=
  match v with
  | PList _ | PStr _ | PDict _ => true
  | _ => false
  end.

(** The cached values [get_page] renders: the empty ones, and an object
    whose [news] entry, when it has one, is iterable. *)
Definition page_renderable (v : pyval) : bool :=
  negb (truthy v)
  || match v with
     | PDict d => iterable (from_option (PList []) (assoc "news" d))
     | _ => false
     end.

(** [blank_cover] and [remove_cover] on what [get_page] returns. *)
Definition on_page (f : pyval -> pyval) (r : Result (list pyval))
  : Result (list pyval) :=
  rmap (map f) r.

(** The notification text of a Digest: the header with the date, the tip,
    the first five items numbered from 1 and the link line. *)
Definition digest_message (d : Digest) : string :=
  "【60秒读懂世界 · " ++ date d ++ "】" ++ nl
  ++ tip d ++ nl ++ nl
  ++ String.concat "" (map (fun s => s ++ nl)
                           (numbered 1 (firstn 5 (news d))))
  ++ nl ++ "查看详情: " ++ link d.

(** The fetches the error taxonomy calls failed: an exception of the
    request, no response, a status other than 200, a body that is not
    JSON, an envelope that is not an object, or a [code] other than 200. *)
Inductive failed_fetch (env : Env) : Prop :=
| network_exception e :
    http env = Raise e -> failed_fetch env
| absent_response :
    http env = Ok None -> failed_fetch env
| non_200_status r :
    http env = Ok (Some r) -> status_code r <> 200 -> failed_fetch env
| body_not_json r e :
    http env = Ok (Some r) -> json r = Raise e -> failed_fetch env
| envelope_not_object r data e :
    http env = Ok (Some r) -> json r = Ok data ->
    py_get data "code" PNone = Raise e -> failed_fetch env
| envelope_code_not_200 r data code :
    http env = Ok (Some r) -> json r = Ok data ->
    py_get data "code" PNone = Ok code -> py_eq_200 code = false ->
    failed_fetch env.

(** The four settings a configuration carries besides the one-shot
    flag, as the plugin holds them. *)
Definition settings {host : Host} (st : State)
  : bool * string * bool * bool :=
  (_enabled st, _cron st, _notify st, _cover st).

(** The plugin after the first two statements of [init_plugin]: the old
    scheduler stopped and the configuration, if there is one, loaded. *)
Definition configured {host : Host} (config : option Config) (st : State)
  : State :=
  match config with
  | Some c => if Config_bool c then load_config c (stop_service st)
              else stop_service st
  | None => stop_service st
  end.

(** [d.get(k, dflt)] on the entries of a dict. *)
Definition lookup (d : list (string * pyval)) (k : string) (dflt : pyval)
  : pyval :=
  from_option dflt (assoc k d).

(** Values numbered from [i], each formatted as an f-string does. *)
Fixpoint numbered_values {host : Host} (i : Z) (l : list pyval)
  : list string :=
  match l with
  | [] => []
  | x :: l' => (str_of_Z i ++ ". " ++ py_str x) :: numbered_values (i + 1) l'
  end.

(** The data of a response the fetch accepts: status 200, a JSON object
    for envelope, and a code equal to 200 ([{}] when the envelope has no
    data entry). *)
Definition accepted_data (env : Env) : option pyval :=
  match http env with
  | Ok (Some r) =>
      if status_code r =? 200 then
        match json r with
        | Ok (PDict e) =>
            if py_eq_200 (from_option PNone (assoc "code" e))
            then Some (from_option (PDict []) (assoc "data" e))
            else None
        | _ => None
        end
      else None
  | _ => None
  end.

(** Whether the notification step goes through on a cached value: there
    is nothing to send, or the text can be assembled. *)
Definition notifiable {host : Host} (d : pyval) : bool :=
  negb (truthy d)
  || match notify_message d with
     | Ok _ => true
     | Raise _ => false
     end.

(** ** A concrete host, for closed runs

    Its cron parser makes the first check of the library's
    [from_crontab], the count of whitespace-separated fields; its [repr]
    of a str quotes without escaping. *)

Definition is_space (c : ascii) : bool :=
  (c =? " ")%char || (c =? "009")%char || (c =? "010")%char.

Fixpoint fields_from (cur : string) (s : string) : list string :=
  match s with
  | EmptyString => if (cur =? "")%string then [] else [cur]
  | String c r =>
      if is_space c
      then (if (cur =? "")%string then [] else [cur]) ++ fields_from "" r
      else fields_from (cur ++ String c "") r
  end.

Definition count_fields_crontab (e : string) : Result (list string) :=
  let values := fields_from "" e in
  if (length values =? 5)%nat then Ok values
  else Raise (Exn ValueError
                ("Wrong number of fields; got "
                 ++ str_of_Z (Z.of_nat (length values)) ++ ", expected 5")).

Definition plain_host : Host :=
  mkHost (list string) count_fields_crontab
         (fun _ => "float") (fun s => "'" ++ s ++ "'").

(** ** Sample data for closed runs *)

Definition sample_digest : Digest :=
  mkDigest "D" "T" "C" ["a"; "b"; "c"; "d"; "e"; "f"] "L".

Definition idle_state (notify : bool) (data : pyval) : @State plain_host :=
  mkState true "0 8 * * *" notify false true None None data [] [] [] [].

Definition respond (status : Z) (body : pyval) : Env :=
  mkEnv (Ok (Some (mkResponse status (Ok body) "body"))) 1000.

Definition sample_envelope : pyval :=
  PDict [("code", PInt 200); ("data", digest_value sample_digest)].

(** An envelope of code 200 whose data has [null] for its news. *)
Definition null_news_envelope : pyval :=
  PDict [("code", PInt 200); ("data", PDict [("news", PNone)])].

(** An envelope of code 200 without a data field. *)
Definition bare_envelope : pyval := PDict [("code", PInt 200)].

(** The event the command [/60s] delivers. *)
Definition sixty_seconds_event : option Event :=
  Some (mkEvent (Some [("action", PStr "sixty_seconds")])).

(** A configuration that enables the plugin with a two-field cron
    expression, and the error the parser of [plain_host] answers. *)
Definition bad_cron_config : Config :=
  mkConfig (Some true) (Some "every day") None None None [].

Definition two_fields_error : exn :=
  Exn ValueError "Wrong number of fields; got 2, expected 5".

(** A configuration that enables the plugin on the default schedule and
    asks for one run at once, and one that disables it. *)
Definition one_shot_config : Config :=
  mkConfig (Some true) (Some "0 8 * * *") (Some true) (Some true) (Some true)
           [].

Definition disabled_config : Config :=
  mkConfig (Some false) (Some "every day") None None None [].

(** The trigger the parser of [plain_host] answers for the default
    schedule. *)
Definition daily_trigger : @CronTrigger plain_host :=
  ["0"; "8"; "*"; "*"; "*"].

(** An object with a date and two news items, one of them a number, and
    nothing else. *)
Definition partial_object : list (string * pyval) :=
  [("date", PStr "D"); ("news", PList [PInt 7; PStr "b"])].

(** An envelope of code 200 whose data is a list. *)
Definition list_envelope : pyval :=
  PDict [("code", PInt 200); ("data", PList [PInt 1])].

(** An event of another plugin. *)
Definition other_event : option Event :=
  Some (mkEvent (Some [("action", PStr "other")])).

(** A configuration with one entry, under a key the plugin does not
    read. *)
Definition unknown_key_config : Config :=
  mkConfig None None None None None [("unknown", PInt 1)].

(** * Properties *)

Lemma append_assoc (a b c : string) : ((a ++ b) ++ c = a ++ (b ++ c))%string.
Proof.
  induction a as [|x a IH]; simpl; [reflexivity | now rewrite IH].
Qed.

Lemma status_200_truthy (r : Response) :
  status_code r = 200 -> response_ok (Some r) = true.
Proof.
  intros H. unfold response_ok, Response_bool. rewrite H. reflexivity.
Qed.

Lemma status_not_200 (r : Response) :
  status_code r <> 200 -> response_ok (Some r) = false.
Proof.
  intros H. unfold response_ok.
  destruct (Z.eqb_spec (status_code r) 200) as [E|E]; [contradiction|].
  apply andb_false_r.
Qed.

Section Facts.

Context {host : Host}.

(** *** The notification text *)

Lemma notify_lines_numbered (l : list string) (i : nat) :
  map notify_line (enumerate_from i (map PStr l))
  = map (fun s => s ++ nl)%string (numbered (Z.of_nat i + 1) l).
Proof.
  revert i. induction l as [|x l IH]; intros i; simpl; [reflexivity|].
  f_equal.
  - unfold notify_line. simpl. now rewrite !append_assoc.
  - rewrite IH. f_equal. f_equal. lia.
Qed.

Lemma notify_message_digest (d : Digest) :
  notify_message (digest_value d) = Ok (digest_message d).
Proof.
  unfold notify_message, digest_message, digest_value. cbn -[firstn enumerate nl].
  rewrite firstn_map. unfold enumerate.
  rewrite (notify_lines_numbered _ 0). reflexivity.
Qed.

Lemma __send_notify_digest (d : Digest) (st : State) :
  _data st = digest_value d ->
  __send_notify st
  = (post_message (Notify SiteMessage "60秒读懂世界" (digest_message d)) st,
     Ok tt).
Proof.
  intros H. unfold __send_notify. rewrite H, notify_message_digest.
  reflexivity.
Qed.

(** [__send_notify] touches nothing but the outbox, and leaves even that
    alone when it raises. *)
Lemma send_notify_frame (st st' : State) (r : Result unit) :
  __send_notify st = (st', r) ->
  _enabled st' = _enabled st /\ _cron st' = _cron st
  /\ _notify st' = _notify st /\ _onlyonce st' = _onlyonce st
  /\ _cover st' = _cover st /\ _last_update st' = _last_update st
  /\ _scheduler st' = _scheduler st /\ _data st' = _data st
  /\ log st' = log st.
Proof.
  unfold __send_notify.
  destruct (negb (truthy (_data st)));
    [|destruct (notify_message (_data st))];
    intros E; inversion E; subst; simpl; repeat split; reflexivity.
Qed.

(** *** Fetch-and-cache *)

(** A failed fetch writes its two log lines and nothing else. *)
Lemma failed_fetch_state (env : Env) (st : State) :
  failed_fetch env ->
  exists m,
    __fetch_data env st
    = (logger ERROR m (logger INFO "开始获取60秒读懂世界数据..." st), Ok false).
Proof.
  intros F. unfold __fetch_data, fetch_try, fetch_failed. cbv zeta.
  destruct F as [e H | H | r H Hs | r e H Hj | r data e H Hj Hc
                | r data code H Hj Hc Hn]; rewrite H.
  - eexists; reflexivity.
  - eexists; reflexivity.
  - rewrite (status_not_200 r Hs). eexists; reflexivity.
  - destruct (response_ok (Some r)); [rewrite Hj|]; eexists; reflexivity.
  - destruct (response_ok (Some r)); [rewrite Hj, Hc|];
      eexists; reflexivity.
  - destruct (response_ok (Some r)); [rewrite Hj, Hc, Hn|];
      eexists; reflexivity.
Qed.

(** C1. After a failed fetch (an exception of the request, no response,
    a status other than 200, an unreadable envelope or an envelope whose
    code is not 200) the cached Digest and the update timestamp are what
    they were before the call, and the call returns [False]. *)
Theorem failed_fetch_keeps_cache (env : Env) (st : State) :
  failed_fetch env ->
  exists st',
    __fetch_data env st = (st', Ok false)
    /\ _data st' = _data st
    /\ _last_update st' = _last_update st
    /\ outbox st' = outbox st.
Proof.
  intros F. destruct (failed_fetch_state env st F) as [m E].
  rewrite E. eexists. split; [reflexivity|].
  repeat split; reflexivity.
Qed.

(** C2. A response with status 200 whose envelope has code 200 and the
    data of a Digest makes the fetch cache exactly that data, record
    the time of the call and return [True]; the one effect besides is
    the notification, posted when the notify flag is set. *)
Theorem successful_fetch_caches_digest
        (env : Env) (st : State) (r : Response)
        (e : list (string * pyval)) (code : pyval) (d : Digest) :
  http env = Ok (Some r) ->
  status_code r = 200 ->
  json r = Ok (PDict e) ->
  assoc "code" e = Some code ->
  py_eq_200 code = true ->
  assoc "data" e = Some (digest_value d) ->
  exists st',
    __fetch_data env st = (st', Ok true)
    /\ _data st' = digest_value d
    /\ _last_update st' = Some (now env)
    /\ outbox st'
       = (outbox st
          ++ (if _notify st
              then [Notify SiteMessage "60秒读懂世界" (digest_message d)]
              else []))%list.
Proof.
  intros H Hs Hj Hc Hn Hd. unfold __fetch_data, fetch_try.
  rewrite H, (status_200_truthy r Hs), Hj. simpl. rewrite Hc, Hn, Hd. simpl.
  destruct (_notify st).
  - rewrite (__send_notify_digest d) by reflexivity.
    eexists; split; [reflexivity|]. simpl. auto.
  - eexists; split; [reflexivity|]. simpl. rewrite app_nil_r. auto.
Qed.

(** C9. A response with status 200 whose envelope has code 200 and no
    data field makes the fetch cache the empty dict, which reads as "no
    data", record the time of the call and return [True]; nothing is
    posted. *)
Theorem fetch_without_data_caches_empty
        (env : Env) (st : State) (r : Response)
        (e : list (string * pyval)) (code : pyval) :
  http env = Ok (Some r) ->
  status_code r = 200 ->
  json r = Ok (PDict e) ->
  assoc "code" e = Some code ->
  py_eq_200 code = true ->
  assoc "data" e = None ->
  exists st',
    __fetch_data env st = (st', Ok true)
    /\ _data st' = PDict []
    /\ truthy (_data st') = false
    /\ _last_update st' = Some (now env)
    /\ outbox st' = outbox st.
Proof.
  intros H Hs Hj Hc Hn Hd. unfold __fetch_data, fetch_try.
  rewrite H, (status_200_truthy r Hs), Hj. simpl. rewrite Hc, Hn, Hd.
  simpl. destruct (_notify st);
    (eexists; split; [reflexivity|]; simpl; auto).
Qed.

(** C8, as amended. Whatever the request does and whatever it returns,
    the fetch returns a boolean and raises nothing.  It returns [True]
    exactly when the response is accepted (status 200, envelope code 200)
    and, with the notify flag set, the notification step goes through;
    [True] comes with the success line in the log and [False] with an
    error line.  An accepted response replaces the cache and the
    timestamp whichever boolean follows; any other leaves them alone. *)
Theorem fetch_data_returns_bool (env : Env) (st : State) :
  exists st' b,
    __fetch_data env st = (st', Ok b)
    /\ (b = true <->
        exists d, accepted_data env = Some d
                  /\ (_notify st = true -> notifiable d = true))
    /\ (b = true ->
        log st' = (log st ++ [(INFO, "开始获取60秒读懂世界数据...")]
                          ++ [(INFO, "60秒读懂世界数据获取成功")])%list)
    /\ (b = false ->
        exists m,
          log st' = (log st ++ [(INFO, "开始获取60秒读懂世界数据...")]
                            ++ [(ERROR, m)])%list)
    /\ (forall d, accepted_data env = Some d ->
                  _data st' = d /\ _last_update st' = Some (now env))
    /\ (accepted_data env = None ->
        _data st' = _data st /\ _last_update st' = _last_update st).
Proof.
  pose (post := fun out : State * Result bool =>
    exists st' b,
      out = (st', Ok b)
      /\ (b = true <->
          exists d, accepted_data env = Some d
                    /\ (_notify st = true -> notifiable d = true))
      /\ (b = true ->
          log st' = (log st ++ [(INFO, "开始获取60秒读懂世界数据...")]
                            ++ [(INFO, "60秒读懂世界数据获取成功")])%list)
      /\ (b = false ->
          exists m,
            log st' = (log st ++ [(INFO, "开始获取60秒读懂世界数据...")]
                              ++ [(ERROR, m)])%list)
      /\ (forall d, accepted_data env = Some d ->
                    _data st' = d /\ _last_update st' = Some (now env))
      /\ (accepted_data env = None ->
          _data st' = _data st /\ _last_update st' = _last_update st)).
  change (post (__fetch_data env st)).
  assert (Rejected : forall m,
             accepted_data env = None ->
             post (logger ERROR m
                          (logger INFO "开始获取60秒读懂世界数据..." st),
                   Ok false)).
  { intros m A. eexists _, false. split; [reflexivity|].
    rewrite A. repeat split; try discriminate.
    - intros (d & E & _). discriminate.
    - exists m. simpl. now rewrite <- app_assoc. }
  assert (Accepted : forall d (s : State) (b : bool) lv m,
             accepted_data env = Some d ->
             _data s = d -> _last_update s = Some (now env) ->
             log s = (log st ++ [(INFO, "开始获取60秒读懂世界数据...")])%list ->
             (b = true <-> (_notify st = true -> notifiable d = true)) ->
             (lv, m) = (if b then (INFO, "60秒读懂世界数据获取成功")
                        else (ERROR, m)) ->
             post (logger lv m s, Ok b)).
  { intros d s b lv m A D U L B Line. exists (logger lv m s), b.
    split; [reflexivity|]. rewrite A. cbn [log logger _data _last_update].
    rewrite L, <- app_assoc. split; [|split; [|split; [|split]]].
    - rewrite B. split.
      + intros N. exists d. auto.
      + intros (d' & E & N). injection E as <-. exact N.
    - intros ->. now rewrite Line.
    - intros ->. injection Line as ->. eauto.
    - intros d' E. injection E as <-. auto.
    - discriminate. }
  unfold __fetch_data, fetch_try, fetch_failed. cbv zeta.
  destruct (http env) as [[r|]|e] eqn:H;
    try (apply Rejected; unfold accepted_data; now rewrite H).
  destruct (Z.eqb_spec (status_code r) 200) as [S|S];
    [rewrite (status_200_truthy r S)
    |rewrite (status_not_200 r S); apply Rejected; unfold accepted_data;
     rewrite H; now destruct (Z.eqb_spec (status_code r) 200)].
  assert (S' : (status_code r =? 200) = true) by now apply Z.eqb_eq.
  destruct (json r) as [data|e] eqn:Hj;
    [|apply Rejected; unfold accepted_data; now rewrite H, S', Hj].
  destruct data as [| | | | | |en];
    try (apply Rejected; unfold accepted_data; now rewrite H, S', Hj).
  cbn [py_get].
  destruct (py_eq_200 match assoc "code" en with
                      | Some x => x
                      | None => PNone
                      end) eqn:Hc;
    [|apply Rejected; unfold accepted_data, from_option;
      now rewrite H, S', Hj, Hc].
  set (d := match assoc "data" en with Some x => x | None => PDict [] end).
  assert (A : accepted_data env = Some d)
    by (unfold accepted_data, from_option; now rewrite H, S', Hj, Hc).
  cbn [_notify set_last_update set_data logger].
  unfold __send_notify. cbn [_data set_last_update set_data].
  destruct (_notify st) eqn:N.
  - destruct (truthy d) eqn:T; cbn [negb];
      [destruct (notify_message d) as [body|e0] eqn:M|].
    + apply (Accepted d); try reflexivity; try assumption.
      unfold notifiable. rewrite T, M. tauto.
    + apply (Accepted d); try reflexivity; try assumption.
      unfold notifiable. rewrite T, M. cbn. split; [discriminate|].
      intros F. specialize (F eq_refl). discriminate.
    + apply (Accepted d); try reflexivity; try assumption.
      unfold notifiable. rewrite T. tauto.
  - apply (Accepted d); try reflexivity; try assumption.
    split; [discriminate | reflexivity].
Qed.

(** *** Notify *)

Lemma numbered_length (l : list string) (i : Z) :
  length (numbered i l) = length l.
Proof.
  revert i. induction l as [|x l IH]; intros i; simpl;
    [reflexivity | now rewrite IH].
Qed.

(** C4. For a present Digest the notification is the fixed template
    filled from it (the header with the date, the tip, the first
    [min 5 (length news)] items numbered from 1 in order, the link line)
    and is posted once, as a [SiteMessage] under the fixed title; with
    nothing cached the call does nothing. *)
Theorem send_notify_posts_template (st : State) :
  (forall d : Digest,
      _data st = digest_value d ->
      __send_notify st
      = (post_message
           (Notify SiteMessage "60秒读懂世界" (digest_message d)) st,
         Ok tt)
      /\ length (numbered 1 (firstn 5 (news d)))
         = Nat.min 5 (length (news d)))
  /\ (truthy (_data st) = false -> __send_notify st = (st, Ok tt)).
Proof.
  split.
  - intros d H. split; [now apply __send_notify_digest|].
    now rewrite numbered_length, length_firstn.
  - intros H. unfold __send_notify. now rewrite H.
Qed.

(** *** Render *)

Lemma page_items_texts (l : list string) (i : nat) :
  flat_map tree_texts (map page_news_item (enumerate_from i (map PStr l)))
  = map PStr (numbered (Z.of_nat i + 1) l).
Proof.
  revert i. induction l as [|x l IH]; intros i; [reflexivity|].
  cbn -[str_of_Z Z.add Z.of_nat]. rewrite IH.
  do 3 f_equal. lia.
Qed.

Lemma get_page_digest (st : State) (d : Digest) :
  _data st = digest_value d ->
  get_page st
  = Ok [page_card (PStr (date d)) (PStr (tip d))
                  (cover_slot (_cover st) (page_cover (PStr (cover d))))
                  (map PStr (news d)) (PStr (link d))].
Proof.
  intros H. unfold get_page. rewrite H.
  destruct (_cover st); reflexivity.
Qed.

Lemma page_card_tree_texts (date tip img : pyval) (items : list pyval)
      (link : pyval) :
  tree_texts (page_card date tip img items link)
  = (PStr ("60秒读懂世界 · " ++ py_str date) :: tip
     :: tree_texts img
     ++ flat_map tree_texts (map page_news_item (enumerate items))
     ++ [PStr "查看详情"])%list.
Proof.
  unfold page_card. simpl. rewrite ?app_nil_r. reflexivity.
Qed.

Lemma cover_slot_no_text (shown : bool) (src : pyval) :
  tree_texts (cover_slot shown (page_cover src)) = [].
Proof.
  destruct shown; reflexivity.
Qed.

(** The texts of the page for any Digest: heading, tip, every item
    numbered from 1, the link label. *)
Lemma page_card_texts (d : Digest) (shown : bool) :
  tree_texts (page_card (PStr (date d)) (PStr (tip d))
                        (cover_slot shown (page_cover (PStr (cover d))))
                        (map PStr (news d)) (PStr (link d)))
  = (PStr ("60秒读懂世界 · " ++ date d) :: PStr (tip d)
     :: map PStr (numbered 1 (news d)) ++ [PStr "查看详情"])%list.
Proof.
  rewrite page_card_tree_texts, cover_slot_no_text.
  unfold enumerate. rewrite (page_items_texts (news d) 0). reflexivity.
Qed.

(** C3. With a Digest of six news items cached, the page shows the
    heading, the tip, all six items numbered 1 to 6 in list order and the
    details label, as the claim says.  The dashboard shows nothing: the
    text of [get_dashboard], which slices the news with [[:3]] as the
    claim says, does not parse, and a call of it yields no tree. *)
Theorem page_numbers_news_dashboard_unparsed
        (st : State) (d : Digest) (a b c x y z : string) :
  _data st = digest_value d ->
  news d = [a; b; c; x; y; z] ->
  (exists card,
      get_page st = Ok [card]
      /\ tree_texts card
         = [PStr ("60秒读懂世界 · " ++ date d); PStr (tip d);
            PStr ("1. " ++ a); PStr ("2. " ++ b); PStr ("3. " ++ c);
            PStr ("4. " ++ x); PStr ("5. " ++ y); PStr ("6. " ++ z);
            PStr "查看详情"])
  /\ get_dashboard st = Raise dashboard_syntax_error.
Proof.
  intros H N. split; [|reflexivity].
  eexists. split; [apply (get_page_digest st d H)|].
  rewrite page_card_texts, N. reflexivity.
Qed.

(** C5, as amended. With nothing cached the page is the single "no
    data" placeholder; and for any cached value the page render raises
    nothing exactly when the cache is empty or is an object whose news
    entry is absent, a list, a str or an object. *)
Theorem render_without_digest (st : State) :
  (truthy (_data st) = false -> get_page st = Ok [no_data_placeholder])
  /\ ((exists page, get_page st = Ok page)
      <-> page_renderable (_data st) = true).
Proof.
  unfold get_page, page_renderable. split.
  - intros H. now rewrite H.
  - destruct (truthy (_data st)); cbn [negb orb]; [|split; eauto].
    destruct (_data st) as [| | | | |l|d];
      try (split; [intros [page E]; discriminate | discriminate]).
    cbn [py_get rbind from_option].
    destruct (_cover st); cbn [rbind];
      destruct (assoc "news" d) as [[| | | | | |]|];
      cbn [py_iter rbind iterable];
      first [ split; [reflexivity | eauto]
            | split; [intros [page E]; discriminate | discriminate] ].
Qed.

Lemma blank_items (f : nat * pyval -> pyval) (l : list (nat * pyval)) :
  (forall p, is_cover_image (f p) = false /\ blank_cover (f p) = f p) ->
  map (fun c => if is_cover_image c then PNone else blank_cover c) (map f l)
  = map f l.
Proof.
  intros F. rewrite map_map. apply map_ext. intros p.
  destruct (F p) as [I B]. now rewrite I, B.
Qed.

Lemma blank_cover_page_card (date tip src : pyval) (items : list pyval)
      (link : pyval) :
  blank_cover (page_card date tip (page_cover src) items link)
  = page_card date tip PNone items link.
Proof.
  unfold page_card. cbn -[append].
  rewrite blank_items; [reflexivity|].
  intros p; split; reflexivity.
Qed.

(** C6, as amended. For every cached value, the page rendered with the
    cover flag off is the page rendered with the flag on in which the
    cover image element is replaced by [None] where it stood, every other
    element unchanged (and both raise the same exception if either
    raises). *)
Theorem cover_off_blanks_image (st : State) :
  get_page (set_cover false st)
  = on_page blank_cover (get_page (set_cover true st)).
Proof.
  unfold get_page, on_page, rmap.
  cbn [_data _cover set_cover].
  destruct (truthy (_data st)); cbn [negb]; [|reflexivity].
  destruct (_data st) as [| | | | |l|d]; try reflexivity.
  cbn [py_get rbind].
  destruct (py_iter _) as [items|e]; cbn [rbind map]; [|reflexivity].
  now rewrite blank_cover_page_card.
Qed.

(** *** Scheduling *)

Lemma fetch_data_total (env : Env) (st : State) :
  exists st' b, __fetch_data env st = (st', Ok b).
Proof.
  unfold __fetch_data. destruct (fetch_try env st) as [st' [b|e]]; eauto.
Qed.

(** A fetch leaves the configuration and the scheduler alone. *)
Lemma fetch_data_frame (env : Env) (st st' : State) (r : Result bool) :
  __fetch_data env st = (st', r) ->
  _enabled st' = _enabled st /\ _cron st' = _cron st
  /\ _notify st' = _notify st /\ _onlyonce st' = _onlyonce st
  /\ _cover st' = _cover st /\ _scheduler st' = _scheduler st.
Proof.
  unfold __fetch_data, fetch_try, fetch_failed. cbv zeta.
  destruct (http env) as [res|e];
    [destruct (response_ok res); [destruct res as [r0|]|]|].
  2-4: intros E; inversion E; subst; simpl; repeat split; reflexivity.
  destruct (json r0) as [data|e];
    [destruct (py_get data "code" PNone) as [code|e];
     [destruct (py_eq_200 code);
      [destruct (py_get data "data" (PDict [])) as [d|e]|]|]|].
  2-5: intros E; inversion E; subst; simpl; repeat split; reflexivity.
  set (st1 := set_last_update _ _).
  destruct (_notify st1).
  - destruct (__send_notify st1) as [st2 [u|e]] eqn:Hs;
      destruct (send_notify_frame _ _ _ Hs)
        as (F1 & F2 & F3 & F4 & F5 & _ & F7 & _);
      intros E; inversion E; subst; simpl;
      rewrite F1, F2, F3, F4, F5, F7; repeat split; reflexivity.
  - intros E; inversion E; subst; simpl; repeat split; reflexivity.
Qed.

Lemma start_scheduler_invalid_cron (st : State) (e : exn) :
  _enabled st = true ->
  from_crontab (_cron st) = Raise e ->
  let st' := start_scheduler st in
  _scheduler st' = Some (mkScheduler [] false)
  /\ _enabled st' = true /\ _cron st' = _cron st
  /\ (_cron st <> "" ->
      log st'
      = (log st ++ [(ERROR, ("定时任务配置错误: " ++ exn_msg e)%string)])%list
      /\ systemmessage st'
         = (systemmessage st
            ++ [("定时任务配置错误: " ++ exn_msg e)%string])%list).
Proof.
  intros En Bad. unfold start_scheduler, register_cron.
  rewrite En, Bad.
  destruct (String.eqb_spec (_cron st) "") as [E|E]; simpl.
  - repeat split; auto; contradiction.
  - repeat split; auto.
Qed.

(** C7. With the plugin enabled and a cron expression the parser
    rejects, [init_plugin] raises nothing, logs the error (for a
    non-empty expression), leaves the scheduler without a job and not
    started, and [get_state] answers [True]; [get_service], the other
    path that registers the fetch, lets the parser's exception out. *)
Theorem invalid_cron_init_quiet_service_raises
        (env : Env) (c : Config) (st : State) (cron : string) (e : exn) :
  cfg_enabled c = Some true ->
  cfg_cron c = Some cron ->
  from_crontab cron = Raise e ->
  exists st',
    init_plugin env (Some c) st = (st', Ok tt)
    /\ _scheduler st' = Some (mkScheduler [] false)
    /\ get_state st' = true
    /\ (cron <> "" ->
        exists l,
          log st'
          = (l ++ [(ERROR, ("定时任务配置错误: " ++ exn_msg e)%string)])%list)
    /\ get_service st' = Raise e.
Proof.
  intros En Cr Bad. unfold init_plugin.
  assert (CB : Config_bool c = true)
    by (destruct c as [[|] ? ? ? ? ?]; simpl in *; congruence).
  rewrite CB.
  set (st1 := load_config c (stop_service st)).
  assert (E1 : _enabled st1 = true) by (simpl; now rewrite En).
  assert (C1 : _cron st1 = cron) by (simpl; now rewrite Cr).
  assert (Fin : forall s : State,
             _enabled s = true -> _cron s = cron ->
             exists st',
               (start_scheduler s, @Ok unit tt) = (st', Ok tt)
               /\ _scheduler st' = Some (mkScheduler [] false)
               /\ get_state st' = true
               /\ (cron <> "" ->
                   exists l,
                     log st'
                     = (l ++ [(ERROR, ("定时任务配置错误: "
                                       ++ exn_msg e)%string)])%list)
               /\ get_service st' = Raise e).
  { intros s Es Cs.
    assert (Bad' : from_crontab (_cron s) = Raise e) by now rewrite Cs.
    destruct (start_scheduler_invalid_cron s e Es Bad')
      as (S1 & S2 & S3 & S4).
    eexists. split; [reflexivity|]. split; [exact S1|].
    split; [exact S2|]. split.
    - intros N. rewrite <- Cs in N. destruct (S4 N) as [L _]. eauto.
    - unfold get_service. rewrite S2, S3, Bad'. reflexivity. }
  destruct (_onlyonce st1).
  - destruct (fetch_data_total env
                (update_config (current_config (set_onlyonce false st1))
                               (set_onlyonce false st1)))
      as (st2 & b & Hf).
    rewrite Hf.
    destruct (fetch_data_frame _ _ _ _ Hf) as (F1 & F2 & _).
    apply Fin; [now rewrite F1 | now rewrite F2].
  - apply Fin; assumption.
Qed.

(** *** The command *)

Lemma send_notify_ok_inv (s s' : State) (u : unit) :
  __send_notify s = (s', Ok u) ->
  (truthy (_data s) = false /\ s' = s)
  \/ (truthy (_data s) = true
      /\ exists body,
           notify_message (_data s) = Ok body
           /\ s' = post_message (Notify SiteMessage "60秒读懂世界" body) s).
Proof.
  unfold __send_notify. destruct (truthy (_data s)); simpl.
  - destruct (notify_message (_data s)) as [body|e];
      intros E; inversion E; subst. right. eauto.
  - intros E; inversion E; subst. now left.
Qed.

(** What a fetch that returns [True] did. *)
Lemma fetch_data_true_inv (env : Env) (st st' : State) :
  __fetch_data env st = (st', Ok true) ->
  exists d mid,
    let cached :=
      set_last_update (Some (now env))
        (set_data d (logger INFO "开始获取60秒读懂世界数据..." st)) in
    (if _notify st then __send_notify cached = (mid, Ok tt)
     else mid = cached)
    /\ st' = logger INFO "60秒读懂世界数据获取成功" mid.
Proof.
  unfold __fetch_data, fetch_try, fetch_failed. cbv zeta.
  destruct (http env) as [res|e];
    [destruct (response_ok res); [destruct res as [r0|]|]|];
    try discriminate.
  destruct (json r0) as [data|e];
    [destruct (py_get data "code" PNone) as [code|e];
     [destruct (py_eq_200 code);
      [destruct (py_get data "data" (PDict [])) as [d|e]|]|]|];
    try discriminate.
  cbn [_notify set_last_update set_data logger].
  destruct (_notify st).
  - destruct (__send_notify _) as [st2 [[]|e]] eqn:Hs; [|discriminate].
    intros E; inversion E; subst. exists d, st2. auto.
  - intros E; inversion E; subst. eexists d, _. split; reflexivity.
Qed.

(** C10, as amended. On the plugin's command, with the notify flag set
    and the triggered fetch returning [True]: if the newly cached Digest
    is non-empty the same notification is posted twice, once by the
    fetch and once by the handler; if it is empty nothing is posted. *)
Theorem action_posts_twice_when_data
        (env : Env) (event : option Event) (st st1 : State) :
  is_plugin_action event = true ->
  _notify st = true ->
  __fetch_data env (logger INFO "收到命令，获取60秒读懂世界数据..." st)
  = (st1, Ok true) ->
  exists st2,
    handle_action env event st = (st2, Ok tt)
    /\ (truthy (_data st1) = true ->
        exists body,
          outbox st2
          = (outbox st ++ [Notify SiteMessage "60秒读懂世界" body;
                           Notify SiteMessage "60秒读懂世界" body])%list)
    /\ (truthy (_data st1) = false -> outbox st2 = outbox st).
Proof.
  intros Act Not Hf. unfold handle_action. rewrite Act, Hf. cbn [negb].
  destruct (fetch_data_frame _ _ _ _ Hf) as (_ & _ & N1 & _).
  cbn [_notify logger] in N1. rewrite N1, Not.
  destruct (fetch_data_true_inv _ _ _ Hf) as (d & mid & Hmid & ->).
  cbn [_notify logger] in Hmid. rewrite Not in Hmid.
  apply send_notify_ok_inv in Hmid.
  unfold __send_notify. cbn [_data logger set_last_update set_data] in *.
  destruct Hmid as [[T ->]|(T & body & Hb & ->)];
    cbn [_data logger set_last_update set_data post_message];
    rewrite T; cbn [negb].
  - eexists. split; [reflexivity|]. split; [discriminate|].
    intros _. reflexivity.
  - rewrite Hb. eexists. split; [reflexivity|].
    split; [|discriminate]. intros _. exists body.
    simpl. rewrite <- app_assoc. reflexivity.
Qed.

(** *** Beyond the listed failures *)

(** With the notify flag set, an envelope of code 200 whose data is
    non-empty and not an object is cached and time-stamped before the
    notification fails on it, and the call then returns [False]. *)
Theorem unusable_data_is_cached_before_failing
        (env : Env) (st : State) (r : Response)
        (e : list (string * pyval)) (code v : pyval) :
  http env = Ok (Some r) ->
  status_code r = 200 ->
  json r = Ok (PDict e) ->
  assoc "code" e = Some code ->
  py_eq_200 code = true ->
  assoc "data" e = Some v ->
  truthy v = true ->
  is_dict v = false ->
  _notify st = true ->
  exists st',
    __fetch_data env st = (st', Ok false)
    /\ _data st' = v
    /\ _last_update st' = Some (now env)
    /\ outbox st' = outbox st.
Proof.
  intros H Hs Hj Hc Hn Hd T D N. unfold __fetch_data, fetch_try.
  rewrite H, (status_200_truthy r Hs), Hj. simpl. rewrite Hc, Hn, Hd.
  simpl. rewrite N. unfold __send_notify. simpl. rewrite T. simpl.
  destruct v; try discriminate; simpl;
    (eexists; split; [reflexivity|]; simpl; auto).
Qed.

(** On the plugin's command with the notify flag set, a failed fetch
    still ends in one notification: the handler posts the Digest that was
    cached before. *)
Theorem action_resends_cached_digest_on_failure
        (env : Env) (event : option Event) (st : State) (d : Digest) :
  is_plugin_action event = true ->
  _notify st = true ->
  failed_fetch env ->
  _data st = digest_value d ->
  exists st',
    handle_action env event st = (st', Ok tt)
    /\ _data st' = digest_value d
    /\ outbox st'
       = (outbox st
          ++ [Notify SiteMessage "60秒读懂世界" (digest_message d)])%list.
Proof.
  intros Act Not F D. unfold handle_action. rewrite Act. cbn [negb].
  destruct (failed_fetch_state
              env (logger INFO "收到命令，获取60秒读懂世界数据..." st) F)
    as [m E].
  rewrite E. cbn [_notify logger]. rewrite Not.
  rewrite (__send_notify_digest d) by exact D.
  eexists. split; [reflexivity|]. split; [exact D | reflexivity].
Qed.

End Facts.

(** * Further properties of the code *)

Section Lifecycle.

Context {host : Host}.

Lemma stop_service_scheduler (st : State) :
  _scheduler (stop_service st) = None.
Proof.
  unfold stop_service. destruct (_scheduler st) eqn:E; [reflexivity | exact E].
Qed.

(** [stop_service] changes the scheduler field only. *)
Lemma stop_service_frame (st : State) :
  let st' := stop_service st in
  settings st' = settings st /\ _onlyonce st' = _onlyonce st
  /\ _data st' = _data st /\ _last_update st' = _last_update st
  /\ log st' = log st /\ outbox st' = outbox st
  /\ systemmessage st' = systemmessage st
  /\ saved_config st' = saved_config st.
Proof.
  unfold stop_service, settings. destruct (_scheduler st);
    simpl; repeat split; reflexivity.
Qed.

Lemma configured_frame (config : option Config) (st : State) :
  let st' := configured config st in
  _scheduler st' = None
  /\ _data st' = _data st /\ _last_update st' = _last_update st
  /\ log st' = log st /\ outbox st' = outbox st
  /\ systemmessage st' = systemmessage st
  /\ saved_config st' = saved_config st.
Proof.
  destruct (stop_service_frame st) as (_ & _ & D & U & L & O & M & C).
  pose proof (stop_service_scheduler st) as S.
  unfold configured.
  destruct config as [c|]; [destruct (Config_bool c)|]; simpl;
    repeat split; assumption.
Qed.

Lemma configured_settings (config : option Config) (st : State) :
  settings (configured config st)
  = match config with
    | Some c =>
        if Config_bool c
        then (from_option false (cfg_enabled c),
              from_option "0 8 * * *" (cfg_cron c),
              from_option false (cfg_notify c),
              from_option true (cfg_cover c))
        else settings st
    | None => settings st
    end.
Proof.
  destruct (stop_service_frame st) as (S0 & _).
  unfold configured.
  destruct config as [c|]; [destruct (Config_bool c)|];
    first [ exact S0 | reflexivity ].
Qed.

(** [__send_notify] writes to the outbox only, and one message at most. *)
Lemma send_notify_journal (s s' : State) (r : Result unit) :
  __send_notify s = (s', r) ->
  systemmessage s' = systemmessage s /\ saved_config s' = saved_config s
  /\ exists posted,
       outbox s' = (outbox s ++ posted)%list /\ (length posted <= 1)%nat.
Proof.
  unfold __send_notify.
  destruct (negb (truthy (_data s)));
    [|destruct (notify_message (_data s)) as [body|e]];
    intros E; inversion E; subst; simpl; repeat split;
    first [ exists []; rewrite app_nil_r; split; [reflexivity | simpl; lia]
          | eexists [_]; split; [reflexivity | simpl; lia] ].
Qed.

(** A fetch writes no system message and saves no configuration; it
    posts one notification at most, and none with the notify flag off. *)
Lemma fetch_data_journal (env : Env) (st st' : State) (r : Result bool) :
  __fetch_data env st = (st', r) ->
  systemmessage st' = systemmessage st /\ saved_config st' = saved_config st
  /\ (exists lines,
         log st' = (log st ++ (INFO, "开始获取60秒读懂世界数据...") :: lines)%list)
  /\ exists posted,
       outbox st' = (outbox st ++ posted)%list
       /\ (length posted <= 1)%nat
       /\ (_notify st = false -> posted = []).
Proof.
  assert (Quiet : forall lv m lv' m',
             let s := logger lv' m' (logger lv m st) in
             lv = INFO -> m = "开始获取60秒读懂世界数据..." ->
             systemmessage s = systemmessage st
             /\ saved_config s = saved_config st
             /\ (exists lines,
                    log s = (log st ++ (lv, m) :: lines)%list)
             /\ exists posted,
                  outbox s = (outbox st ++ posted)%list
                  /\ (length posted <= 1)%nat
                  /\ (_notify st = false -> posted = [])).
  { intros lv m lv' m' s _ _. subst s. simpl. repeat split.
    - eexists [_]. now rewrite <- app_assoc.
    - exists []. rewrite app_nil_r. repeat split; simpl; auto. }
  unfold __fetch_data, fetch_try, fetch_failed. cbv zeta.
  destruct (http env) as [res|e];
    [destruct (response_ok res); [destruct res as [r0|]|]|].
  2-4: intros E; inversion E; subst; now apply Quiet.
  destruct (json r0) as [data|e];
    [destruct (py_get data "code" PNone) as [code|e];
     [destruct (py_eq_200 code);
      [destruct (py_get data "data" (PDict [])) as [d|e]|]|]|].
  2-5: intros E; inversion E; subst; now apply Quiet.
  set (st1 := set_last_update _ _).
  assert (N1 : _notify st1 = _notify st) by reflexivity.
  destruct (_notify st1) eqn:Hn.
  - destruct (__send_notify st1) as [st2 [u|e]] eqn:Hs;
      destruct (send_notify_frame _ _ _ Hs)
        as (_ & _ & _ & _ & _ & _ & _ & _ & L);
      destruct (send_notify_journal _ _ _ Hs) as (M & C & posted & O & Len);
      intros E; inversion E; subst; simpl; rewrite M, C, L, O;
      (split; [reflexivity|]); (split; [reflexivity|]);
      (split; [eexists [_]; subst st1; simpl; now rewrite <- app_assoc|]);
      exists posted; (split; [reflexivity|]); (split; [exact Len|]);
      intros F; rewrite F in N1; discriminate.
  - intros E; inversion E; subst. now apply (Quiet INFO _ INFO).
Qed.

(** [start_scheduler] sets the scheduler from the settings alone, and
    writes nothing but the cron error. *)
Lemma start_scheduler_frame (st : State) :
  let st' := start_scheduler st in
  settings st' = settings st /\ _onlyonce st' = _onlyonce st
  /\ _data st' = _data st /\ _last_update st' = _last_update st
  /\ outbox st' = outbox st /\ saved_config st' = saved_config st
  /\ exists lines, log st' = (log st ++ lines)%list.
Proof.
  unfold start_scheduler, register_cron, settings.
  destruct (_enabled st) eqn:En;
    [destruct (negb (_cron st =? "")%string);
     [destruct (from_crontab (_cron st))|]|];
    simpl; rewrite ?En; repeat split;
    first [ exists []; now rewrite app_nil_r | eexists [_]; reflexivity ].
Qed.

Lemma start_scheduler_result (st : State) :
  _scheduler (start_scheduler st)
  = if _enabled st then
      if (_cron st =? "")%string then Some (mkScheduler [] false)
      else match from_crontab (_cron st) with
           | Ok t => Some (mkScheduler [mkJob "60秒读懂世界" t] true)
           | Raise _ => Some (mkScheduler [] false)
           end
    else _scheduler st.
Proof.
  unfold start_scheduler, register_cron.
  destruct (_enabled st); [|reflexivity].
  destruct (_cron st =? "")%string; [reflexivity|]. simpl.
  destruct (from_crontab (_cron st)); reflexivity.
Qed.

(** [init_plugin] in two steps: the optional one-shot fetch on the
    configured plugin, then the scheduler. *)
Lemma init_plugin_steps (env : Env) (config : option Config) (st : State) :
  exists mid,
    init_plugin env config st = (start_scheduler mid, Ok tt)
    /\ if _onlyonce (configured config st)
       then exists b,
           __fetch_data
             env
             (update_config
                (current_config (set_onlyonce false (configured config st)))
                (set_onlyonce false (configured config st)))
           = (mid, Ok b)
       else mid = configured config st.
Proof.
  unfold init_plugin. fold (configured config st).
  destruct (_onlyonce (configured config st)).
  - destruct (fetch_data_total
                env
                (update_config
                   (current_config (set_onlyonce false (configured config st)))
                   (set_onlyonce false (configured config st))))
      as (mid & b & E).
    rewrite E. exists mid. split; [reflexivity | eauto].
  - eexists. split; reflexivity.
Qed.

(** What reaches [start_scheduler]: the configured plugin, the one-shot
    flag off, possibly after a fetch. *)
Lemma init_plugin_mid (env : Env) (config : option Config) (st : State) :
  exists mid,
    init_plugin env config st = (start_scheduler mid, Ok tt)
    /\ settings mid = settings (configured config st)
    /\ _scheduler mid = None
    /\ _onlyonce mid = false
    /\ (_onlyonce (configured config st) = false ->
        mid = configured config st)
    /\ (_onlyonce (configured config st) = true ->
        saved_config mid
        = (saved_config st
           ++ [mkConfig (Some (_enabled mid)) (Some (_cron mid))
                        (Some (_notify mid)) (Some false)
                        (Some (_cover mid)) []])%list
        /\ exists lines,
             log mid
             = (log st ++ (INFO, "开始获取60秒读懂世界数据...") :: lines)%list).
Proof.
  destruct (init_plugin_steps env config st) as (mid & E & H).
  destruct (configured_frame config st) as (S & _ & _ & L & _ & _ & C).
  exists mid. split; [exact E|].
  destruct (_onlyonce (configured config st)) eqn:Once.
  - destruct H as [b F].
    destruct (fetch_data_frame _ _ _ _ F) as (F1 & F2 & F3 & F4 & F5 & F6).
    destruct (fetch_data_journal _ _ _ _ F) as (_ & J & (lines & Lg) & _).
    cbn [_enabled _cron _notify _onlyonce _cover _scheduler
         update_config set_onlyonce saved_config log] in *.
    unfold settings. rewrite F1, F2, F3, F5, F6, F4.
    repeat split; try assumption; try discriminate.
    + rewrite J, C. reflexivity.
    + exists lines. rewrite Lg, L. reflexivity.
  - subst mid. repeat split; try assumption; discriminate.
Qed.

(** [init_plugin] never raises, and the scheduler it leaves follows from
    the settings alone: none when disabled; when enabled, one started
    job for a cron expression the parser accepts, and an idle scheduler
    without a job for an empty or rejected one.  Jobs of an earlier
    scheduler are never kept. *)
Theorem init_plugin_sets_scheduler
        (env : Env) (config : option Config) (st : State) :
  exists st',
    init_plugin env config st = (st', Ok tt)
    /\ _scheduler st'
       = if _enabled st' then
           if (_cron st' =? "")%string then Some (mkScheduler [] false)
           else match from_crontab (_cron st') with
                | Ok t => Some (mkScheduler [mkJob "60秒读懂世界" t] true)
                | Raise _ => Some (mkScheduler [] false)
                end
         else None.
Proof.
  destruct (init_plugin_mid env config st) as (mid & E & _ & S & _).
  exists (start_scheduler mid). split; [exact E|].
  destruct (start_scheduler_frame mid) as (St & _).
  unfold settings in St. injection St as E1 E2 _ _.
  rewrite start_scheduler_result, E1, E2, S. reflexivity.
Qed.

(** The one-shot flag is consumed: [init_plugin] always leaves it off,
    and when the configuration asks for a run it saves one configuration,
    the live settings with the flag off, and runs a fetch. *)
Theorem init_plugin_consumes_onlyonce
        (env : Env) (config : option Config) (st : State) :
  exists st',
    init_plugin env config st = (st', Ok tt)
    /\ _onlyonce st' = false
    /\ forall c,
        config = Some c -> cfg_onlyonce c = Some true ->
        saved_config st'
        = (saved_config st
           ++ [mkConfig (Some (_enabled st')) (Some (_cron st'))
                        (Some (_notify st')) (Some false)
                        (Some (_cover st')) []])%list
        /\ exists lines,
             log st'
             = (log st ++ (INFO, "开始获取60秒读懂世界数据...") :: lines)%list.
Proof.
  destruct (init_plugin_mid env config st)
    as (mid & E & _ & _ & O & _ & Ran).
  exists (start_scheduler mid). split; [exact E|].
  destruct (start_scheduler_frame mid)
    as (St & O' & _ & _ & _ & C & (more & Lg)).
  split; [now rewrite O'|].
  intros c -> Hc.
  assert (Once : _onlyonce (configured (Some c) st) = true).
  { unfold configured.
    replace (Config_bool c) with true
      by (destruct c as [[?|] [?|] [?|] [?|] [?|] [|]]; simpl in *;
          congruence).
    simpl. now rewrite Hc. }
  destruct (Ran Once) as (Sv & lines & Lm).
  unfold settings in St. injection St as E1 E2 E3 E4.
  rewrite C, Sv, E1, E2, E3, E4. split; [reflexivity|].
  exists (lines ++ more)%list. rewrite Lg, Lm, <- app_assoc. reflexivity.
Qed.

(** Reloading the configuration the plugin saves for itself changes no
    setting and triggers nothing: no fetch, no notification, no further
    save. *)
Theorem saved_config_round_trip (env : Env) (st : State) :
  exists st',
    init_plugin env (Some (current_config st)) st = (st', Ok tt)
    /\ settings st' = settings st
    /\ _onlyonce st' = false
    /\ _data st' = _data st
    /\ _last_update st' = _last_update st
    /\ outbox st' = outbox st
    /\ saved_config st' = saved_config st.
Proof.
  destruct (init_plugin_mid env (Some (current_config st)) st)
    as (mid & E & Sm & _ & O & Same & _).
  exists (start_scheduler mid). split; [exact E|].
  destruct (start_scheduler_frame mid) as (St & O' & D & U & B & C & _).
  destruct (stop_service_frame st) as (_ & _ & D0 & U0 & _ & B0 & _ & C0).
  assert (M : mid = configured (Some (current_config st)) st)
    by (apply Same; reflexivity).
  rewrite St, O', D, U, B, C, O. rewrite M. cbn.
  repeat split; assumption || reflexivity.
Qed.

(** The settings after [init_plugin]: those of a non-empty configuration,
    with the default for each key it lacks (not the value held before);
    the ones held before when the configuration is absent or empty. *)
Theorem init_plugin_settings
        (env : Env) (config : option Config) (st : State) :
  exists st',
    init_plugin env config st = (st', Ok tt)
    /\ settings st'
       = match config with
         | Some c =>
             if Config_bool c
             then (from_option false (cfg_enabled c),
                   from_option "0 8 * * *" (cfg_cron c),
                   from_option false (cfg_notify c),
                   from_option true (cfg_cover c))
             else settings st
         | None => settings st
         end.
Proof.
  destruct (init_plugin_mid env config st) as (mid & E & Sm & _).
  exists (start_scheduler mid). split; [exact E|].
  destruct (start_scheduler_frame mid) as (St & _).
  rewrite St, Sm. apply configured_settings.
Qed.

(** An enabled plugin with a cron expression the parser accepts has the
    fetch registered twice: as the one started job of its own scheduler
    and as the one service [get_service] hands to the host, both on the
    same trigger. *)
Theorem enabled_plugin_registers_fetch_twice
        (env : Env) (c : Config) (st : State) (cron : string)
        (t : CronTrigger) :
  cfg_enabled c = Some true ->
  cfg_cron c = Some cron ->
  cron <> "" ->
  from_crontab cron = Ok t ->
  exists st',
    init_plugin env (Some c) st = (st', Ok tt)
    /\ _scheduler st' = Some (mkScheduler [mkJob "60秒读懂世界" t] true)
    /\ get_service st'
       = Ok [mkService "SixtySeconds" "60秒读懂世界定时服务" t].
Proof.
  intros En Cr Ne Good.
  destruct (init_plugin_mid env (Some c) st) as (mid & E & Sm & _).
  exists (start_scheduler mid). split; [exact E|].
  destruct (start_scheduler_frame mid) as (St & _).
  assert (CB : Config_bool c = true)
    by (destruct c as [[?|] [?|] [?|] [?|] [?|] [|]]; simpl in *;
          congruence).
  rewrite configured_settings, CB, En, Cr in Sm. cbn [from_option] in Sm.
  unfold settings in Sm, St. injection Sm as M1 M2 _ _.
  injection St as S1 S2 _ _.
  assert (Nb : (cron =? "")%string = false) by now apply String.eqb_neq.
  split.
  - rewrite start_scheduler_result, M1, M2, Nb, Good. reflexivity.
  - unfold get_service. rewrite S1, S2, M1, M2, Good. reflexivity.
Qed.

(** A plugin configured as disabled registers nothing and never looks at
    its cron expression: no scheduler, no service, [get_state] false and
    no system message, whatever the expression is. *)
Theorem disabled_plugin_registers_nothing
        (env : Env) (c : Config) (st : State) :
  Config_bool c = true ->
  from_option false (cfg_enabled c) = false ->
  exists st',
    init_plugin env (Some c) st = (st', Ok tt)
    /\ get_state st' = false
    /\ _scheduler st' = None
    /\ get_service st' = Ok []
    /\ systemmessage st' = systemmessage st.
Proof.
  intros CB Off.
  destruct (init_plugin_steps env (Some c) st) as (mid & E & H).
  destruct (init_plugin_mid env (Some c) st) as (mid' & E' & Sm & Sc & _).
  rewrite E in E'. injection E' as Eq.
  exists (start_scheduler mid). split; [exact E|].
  assert (En : _enabled mid = false).
  { rewrite configured_settings, CB, Off in Sm.
    assert (St : settings (start_scheduler mid)
                 = settings (start_scheduler mid')) by now rewrite Eq.
    destruct (start_scheduler_frame mid) as (S1 & _).
    destruct (start_scheduler_frame mid') as (S2 & _).
    rewrite S1, S2, Sm in St. unfold settings in St.
    now injection St. }
  assert (Same : start_scheduler mid = mid)
    by (unfold start_scheduler; now rewrite En).
  rewrite Same. unfold get_state, get_service. rewrite En.
  assert (Sc0 : _scheduler mid = None /\ systemmessage mid = systemmessage st).
  { destruct (configured_frame (Some c) st) as (S & _ & _ & _ & _ & M & _).
    destruct (_onlyonce (configured (Some c) st)).
    - destruct H as [b F].
      destruct (fetch_data_frame _ _ _ _ F) as (_ & _ & _ & _ & _ & F6).
      destruct (fetch_data_journal _ _ _ _ F) as (J & _).
      cbn [_scheduler systemmessage update_config set_onlyonce] in *.
      now rewrite F6, J, S, M.
    - subst mid. auto. }
  destruct Sc0 as [S M]. repeat split; assumption || reflexivity.
Qed.

End Lifecycle.

Section Command.

Context {host : Host}.

(** With the notify flag off, [handle_action] never raises and never
    posts, whatever the event, the response and the cache are. *)
Theorem handle_action_quiet_without_notify
        (env : Env) (event : option Event) (st : State) :
  _notify st = false ->
  exists st',
    handle_action env event st = (st', Ok tt)
    /\ outbox st' = outbox st.
Proof.
  intros N. unfold handle_action.
  destruct (is_plugin_action event); cbn [negb]; [|eauto].
  destruct (fetch_data_total
              env (logger INFO "收到命令，获取60秒读懂世界数据..." st))
    as (st1 & b & F).
  rewrite F.
  destruct (fetch_data_frame _ _ _ _ F) as (_ & _ & N1 & _).
  destruct (fetch_data_journal _ _ _ _ F)
    as (_ & _ & _ & posted & O & _ & Q).
  cbn [_notify outbox logger] in *.
  rewrite N1, N. exists st1. split; [reflexivity|].
  rewrite O, (Q N). apply app_nil_r.
Qed.

(** An event that is absent, carries no data, or whose data has no
    [action] entry equal to the str [sixty_seconds] is ignored: nothing is
    logged, fetched or posted. *)
Theorem handle_action_ignores_other_events
        (env : Env) (event : option Event) (st : State) :
  (forall ev d,
      event = Some ev -> event_data ev = Some d ->
      assoc "action" d <> Some (PStr "sixty_seconds")) ->
  handle_action env event st = (st, Ok tt).
Proof.
  intros Other. unfold handle_action.
  replace (is_plugin_action event) with false; [reflexivity|].
  symmetry. unfold is_plugin_action.
  destruct event as [ev|]; [|reflexivity].
  destruct (event_data ev) as [d|] eqn:Ed; [|reflexivity].
  specialize (Other ev d eq_refl Ed).
  destruct (assoc "action" d) as [[| | | |a| |]|];
    cbn [from_option py_eq_str]; try apply andb_false_r.
  destruct (String.eqb_spec a "sixty_seconds") as [->|Ne];
    [contradiction | apply andb_false_r].
Qed.

(** With the notify flag set, data that is non-empty and not an object
    makes [handle_action] raise: the fetch caches it and catches the
    notification's [AttributeError], and the handler's own notification
    then raises it again, uncaught. *)
Theorem handle_action_raises_on_unusable_data
        (env : Env) (event : option Event) (st : State) (r : Response)
        (e : list (string * pyval)) (code v : pyval) :
  is_plugin_action event = true ->
  _notify st = true ->
  http env = Ok (Some r) ->
  status_code r = 200 ->
  json r = Ok (PDict e) ->
  assoc "code" e = Some code ->
  py_eq_200 code = true ->
  assoc "data" e = Some v ->
  truthy v = true ->
  is_dict v = false ->
  exists st',
    handle_action env event st
    = (st', Raise (Exn AttributeError
                       ("'" ++ type_name v
                            ++ "' object has no attribute 'get'")))
    /\ _data st' = v.
Proof.
  intros Act N H Hs Hj Hc Hn Hd T D.
  unfold handle_action, __fetch_data, fetch_try. rewrite Act. cbn [negb].
  cbv zeta. rewrite H, (status_200_truthy r Hs), Hj. simpl.
  rewrite Hc, Hn, Hd. simpl. rewrite N.
  unfold __send_notify. simpl. rewrite T. simpl.
  destruct v; try discriminate; simpl in T |- *; rewrite N; simpl;
    rewrite ?T; simpl;
    (eexists; split; [reflexivity|]; reflexivity).
Qed.

End Command.



Section Objects.

Context {host : Host}.

Lemma py_get_lookup (d : list (string * pyval)) (k : string) (dflt : pyval) :
  py_get (PDict d) k dflt = Ok (lookup d k dflt).
Proof.
  unfold py_get, lookup, from_option. reflexivity.
Qed.

Lemma notify_lines_values (l : list pyval) (i : nat) :
  map notify_line (enumerate_from i l)
  = map (fun s => s ++ nl)%string (numbered_values (Z.of_nat i + 1) l).
Proof.
  revert i. induction l as [|x l IH]; intros i; simpl; [reflexivity|].
  f_equal.
  - unfold notify_line. simpl. now rewrite !append_assoc.
  - rewrite IH. f_equal. f_equal. lia.
Qed.


Lemma nonempty_dict_truthy (d : list (string * pyval)) :
  d <> [] -> truthy (PDict d) = true.
Proof.
  destruct d; [contradiction | reflexivity].
Qed.


(** For any cached JSON object, complete or not, whose news is a list or
    missing: [__send_notify] posts exactly one [SiteMessage] and changes
    nothing else; a missing date, tip or link reads as the empty str, and
    only the first five items appear, numbered from 1. *)
Theorem notify_of_any_object
        (st : State) (d : list (string * pyval)) (l : list pyval) :
  _data st = PDict d ->
  d <> [] ->
  lookup d "news" (PList []) = PList l ->
  __send_notify st
  = (post_message
       (Notify SiteMessage "60秒读懂世界"
               ("【60秒读懂世界 · " ++ py_str (lookup d "date" (PStr ""))
                ++ "】" ++ nl
                ++ py_str (lookup d "tip" (PStr "")) ++ nl ++ nl
                ++ String.concat
                     "" (map (fun s => s ++ nl)
                             (numbered_values 1 (firstn 5 l)))
                ++ nl ++ "查看详情: "
                ++ py_str (lookup d "link" (PStr ""))))
       st,
     Ok tt).
Proof.
  intros D Ne N. pose proof (nonempty_dict_truthy d Ne) as T.
  unfold __send_notify, notify_message. rewrite D, T. cbn [negb].
  rewrite !py_get_lookup, N. cbn [rbind py_iter py_slice].
  unfold enumerate. rewrite (notify_lines_values (firstn 5 l) 0).
  reflexivity.
Qed.

(** What a fetch never touches: the settings, the one-shot flag, the
    scheduler, the system messages and the saved configurations.  It
    posts one notification at most, and none with the notify flag off. *)
Theorem fetch_touches_cache_log_outbox_only (env : Env) (st : State) :
  exists st' b,
    __fetch_data env st = (st', Ok b)
    /\ settings st' = settings st
    /\ _onlyonce st' = _onlyonce st
    /\ _scheduler st' = _scheduler st
    /\ systemmessage st' = systemmessage st
    /\ saved_config st' = saved_config st
    /\ exists posted,
         outbox st' = (outbox st ++ posted)%list
         /\ (length posted <= 1)%nat
         /\ (_notify st = false -> posted = []).
Proof.
  destruct (fetch_data_total env st) as (st' & b & F).
  destruct (fetch_data_frame _ _ _ _ F) as (F1 & F2 & F3 & F4 & F5 & F6).
  destruct (fetch_data_journal _ _ _ _ F) as (M & C & _ & P).
  exists st', b. unfold settings. rewrite F1, F2, F3, F5.
  repeat split; assumption.
Qed.

(** What the log says of a failed request: the exception's text after
    [异常], and after [失败] the body of a response the HTTP library
    counts as successful (any status outside 400..599 here, since 200
    is excluded), or [无响应] when there is no response or its status is
    4xx or 5xx. *)
Theorem failed_request_log_line (env : Env) (st : State) :
  (forall e,
      http env = Raise e ->
      log (fst (__fetch_data env st))
      = (log st ++ [(INFO, "开始获取60秒读懂世界数据...");
                    (ERROR, ("获取60秒读懂世界数据异常: " ++ exn_msg e)%string)])%list)
  /\ (http env = Ok None ->
      log (fst (__fetch_data env st))
      = (log st ++ [(INFO, "开始获取60秒读懂世界数据...");
                    (ERROR, "获取60秒读懂世界数据失败: 无响应")])%list)
  /\ (forall r,
        http env = Ok (Some r) ->
        status_code r <> 200 ->
        log (fst (__fetch_data env st))
        = (log st
           ++ [(INFO, "开始获取60秒读懂世界数据...");
               (ERROR,
                ("获取60秒读懂世界数据失败: "
                 ++ (if ((400 <=? status_code r)%Z
                         && (status_code r <? 600)%Z)%bool
                     then "无响应" else res_text r))%string)])%list).
Proof.
  unfold __fetch_data, fetch_try, fetch_failed. cbv zeta.
  split; [|split].
  - intros e H. rewrite H. simpl. now rewrite <- app_assoc.
  - intros H. rewrite H. simpl. now rewrite <- app_assoc.
  - intros r H Hs. rewrite H, (status_not_200 r Hs).
    cbn [fst log logger failure_text]. unfold Response_bool.
    rewrite <- app_assoc.
    destruct ((400 <=? status_code r) && (status_code r <? 600));
      reflexivity.
Qed.

End Objects.

Section EndToEnd.

Context {host : Host}.

(** The state a fetch of a Digest ends in. *)
Lemma fetch_digest_state
      (env : Env) (st : State) (r : Response)
      (e : list (string * pyval)) (code : pyval) (d : Digest) :
  http env = Ok (Some r) ->
  status_code r = 200 ->
  json r = Ok (PDict e) ->
  assoc "code" e = Some code ->
  py_eq_200 code = true ->
  assoc "data" e = Some (digest_value d) ->
  let cached :=
    set_last_update (Some (now env))
      (set_data (digest_value d)
                (logger INFO "开始获取60秒读懂世界数据..." st)) in
  __fetch_data env st
  = (logger INFO "60秒读懂世界数据获取成功"
            (if _notify st
             then post_message
                    (Notify SiteMessage "60秒读懂世界" (digest_message d))
                    cached
             else cached),
     Ok true).
Proof.
  intros H Hs Hj Hc Hn Hd. unfold __fetch_data, fetch_try.
  rewrite H, (status_200_truthy r Hs), Hj. simpl. rewrite Hc, Hn, Hd. simpl.
  destruct (_notify st); [|reflexivity].
  rewrite (__send_notify_digest d) by reflexivity. reflexivity.
Qed.

(** Fetch, then render: after a successful fetch of a Digest with any
    number of items, whatever was cached before, the page shows its
    heading, tip and every item numbered from 1. *)
Theorem page_follows_successful_fetch
        (env : Env) (st : State) (r : Response)
        (e : list (string * pyval)) (code : pyval) (d : Digest) :
  http env = Ok (Some r) ->
  status_code r = 200 ->
  json r = Ok (PDict e) ->
  assoc "code" e = Some code ->
  py_eq_200 code = true ->
  assoc "data" e = Some (digest_value d) ->
  exists st' page,
    __fetch_data env st = (st', Ok true)
    /\ get_page st' = Ok [page]
    /\ tree_texts page
       = (PStr ("60秒读懂世界 · " ++ date d) :: PStr (tip d)
          :: map PStr (numbered 1 (news d)) ++ [PStr "查看详情"])%list.
Proof.
  intros H Hs Hj Hc Hn Hd.
  pose proof (fetch_digest_state env st r e code d H Hs Hj Hc Hn Hd) as F.
  cbv zeta in F.
  eexists _, _. split; [exact F|].
  match goal with
  | |- get_page ?s = _ /\ _ =>
      assert (Ds : _data s = digest_value d)
        by (destruct (_notify st); reflexivity)
  end.
  split; [apply (get_page_digest _ d Ds)|].
  apply page_card_texts.
Qed.

(** A fetch that fails by an exception of the request, no response, a
    status other than 200, an unreadable body or envelope, or an envelope
    code other than 200 changes nothing of the page: [get_page] returns
    after it what it returned before. *)
Theorem page_survives_failed_fetch (env : Env) (st : State) :
  failed_fetch env ->
  get_page (fst (__fetch_data env st)) = get_page st.
Proof.
  intros F. destruct (failed_fetch_state env st F) as [m E].
  rewrite E. reflexivity.
Qed.

(** Fetches do not deduplicate: with the notify flag set, fetching the
    same Digest twice in a row posts the same notification twice, while
    the cache after the second fetch is the cache after the first. *)
Theorem repeated_fetch_notifies_again
        (env : Env) (st : State) (r : Response)
        (e : list (string * pyval)) (code : pyval) (d : Digest) :
  http env = Ok (Some r) ->
  status_code r = 200 ->
  json r = Ok (PDict e) ->
  assoc "code" e = Some code ->
  py_eq_200 code = true ->
  assoc "data" e = Some (digest_value d) ->
  _notify st = true ->
  exists st1 st2,
    __fetch_data env st = (st1, Ok true)
    /\ __fetch_data env st1 = (st2, Ok true)
    /\ _data st2 = _data st1
    /\ outbox st2
       = (outbox st
          ++ [Notify SiteMessage "60秒读懂世界" (digest_message d);
              Notify SiteMessage "60秒读懂世界" (digest_message d)])%list.
Proof.
  intros H Hs Hj Hc Hn Hd N.
  pose proof (fetch_digest_state env st r e code d H Hs Hj Hc Hn Hd) as F1.
  cbv zeta in F1. rewrite N in F1.
  eexists _, _. split; [exact F1|].
  split; [apply (fetch_digest_state env _ r e code d H Hs Hj Hc Hn Hd)|].
  cbn [_notify logger post_message set_last_update set_data]. rewrite N.
  split; [reflexivity|].
  cbn [outbox logger post_message set_last_update set_data].
  now rewrite <- app_assoc.
Qed.

End EndToEnd.

(** ** Closed runs on [plain_host] *)

Lemma failed_fetch_keeps_cache_run :
  failed_fetch (respond 404 sample_envelope)
  /\ exists st',
      __fetch_data (respond 404 sample_envelope)
                 (idle_state true (digest_value sample_digest))
      = (st', Ok false)
      /\ _data st' = digest_value sample_digest
      /\ _last_update st' = None
      /\ outbox st' = [].
Proof.
  assert (F : failed_fetch (respond 404 sample_envelope)).
  { apply (non_200_status _ (mkResponse 404 (Ok sample_envelope) "body"));
      [reflexivity | discriminate]. }
  split; [exact F|].
  exact (failed_fetch_keeps_cache
           (respond 404 sample_envelope)
           (idle_state true (digest_value sample_digest)) F).
Defined.

Lemma successful_fetch_caches_digest_run :
  exists st',
    __fetch_data (respond 200 sample_envelope) (idle_state true (PDict []))
    = (st', Ok true)
    /\ _data st' = digest_value sample_digest
    /\ _last_update st' = Some 1000
    /\ outbox st'
       = [Notify SiteMessage "60秒读懂世界" (digest_message sample_digest)].
Proof.
  exact (successful_fetch_caches_digest
           (respond 200 sample_envelope) (idle_state true (PDict []))
           (mkResponse 200 (Ok sample_envelope) "body")
           [("code", PInt 200); ("data", digest_value sample_digest)]
           (PInt 200) sample_digest
           eq_refl eq_refl eq_refl eq_refl eq_refl eq_refl).
Defined.

Lemma fetch_without_data_caches_empty_run :
  exists st',
    __fetch_data (respond 200 bare_envelope)
               (idle_state true (digest_value sample_digest))
    = (st', Ok true)
    /\ _data st' = PDict []
    /\ truthy (_data st') = false
    /\ _last_update st' = Some 1000
    /\ outbox st' = [].
Proof.
  exact (fetch_without_data_caches_empty
           (respond 200 bare_envelope)
           (idle_state true (digest_value sample_digest))
           (mkResponse 200 (Ok bare_envelope) "body")
           [("code", PInt 200)] (PInt 200)
           eq_refl eq_refl eq_refl eq_refl eq_refl eq_refl).
Defined.

Lemma send_notify_posts_template_run :
  (__send_notify (idle_state true (digest_value sample_digest))
   = (post_message
        (Notify SiteMessage "60秒读懂世界" (digest_message sample_digest))
        (idle_state true (digest_value sample_digest)),
      Ok tt)
   /\ length (numbered 1 (firstn 5 (news sample_digest))) = 5%nat)
  /\ __send_notify (idle_state true (PDict []))
     = (idle_state true (PDict []), Ok tt).
Proof.
  split.
  - exact (proj1 (send_notify_posts_template
                    (idle_state true (digest_value sample_digest)))
                 sample_digest eq_refl).
  - exact (proj2 (send_notify_posts_template (idle_state true (PDict [])))
                 eq_refl).
Defined.

Lemma page_numbers_news_dashboard_unparsed_run :
  (exists card,
      get_page (idle_state false (digest_value sample_digest)) = Ok [card]
      /\ tree_texts card
         = [PStr "60秒读懂世界 · D"; PStr "T";
            PStr "1. a"; PStr "2. b"; PStr "3. c";
            PStr "4. d"; PStr "5. e"; PStr "6. f"; PStr "查看详情"])
  /\ get_dashboard (idle_state false (digest_value sample_digest))
     = Raise dashboard_syntax_error.
Proof.
  exact (page_numbers_news_dashboard_unparsed
           (idle_state false (digest_value sample_digest)) sample_digest
           "a" "b" "c" "d" "e" "f" eq_refl eq_refl).
Defined.

Lemma render_without_digest_run :
  get_page (idle_state false (PDict [])) = Ok [no_data_placeholder]
  /\ (exists page,
         get_page (idle_state false (PDict [("news", PStr "ab")])) = Ok page)
  /\ page_renderable (_data (idle_state false (digest_value sample_digest)))
     = true.
Proof.
  split; [|split].
  - exact (proj1 (render_without_digest (idle_state false (PDict [])))
                 eq_refl).
  - exact (proj2 (proj2 (render_without_digest
                           (idle_state false (PDict [("news", PStr "ab")]))))
                 eq_refl).
  - exact (proj1 (proj2 (render_without_digest
                           (idle_state false (digest_value sample_digest))))
                 (ex_intro _ _ (get_page_digest
                                  (idle_state false
                                              (digest_value sample_digest))
                                  sample_digest eq_refl))).
Defined.

Lemma invalid_cron_init_quiet_service_raises_run :
  exists st',
    init_plugin (respond 200 sample_envelope) (Some bad_cron_config)
                (idle_state false (PDict []))
    = (st', Ok tt)
    /\ _scheduler st' = Some (mkScheduler [] false)
    /\ get_state st' = true
    /\ ("every day" <> "" ->
        exists l,
          log st'
          = (l ++ [(ERROR, ("定时任务配置错误: "
                            ++ exn_msg two_fields_error)%string)])%list)
    /\ get_service st' = Raise two_fields_error.
Proof.
  exact (invalid_cron_init_quiet_service_raises
           (respond 200 sample_envelope) bad_cron_config
           (idle_state false (PDict [])) "every day" two_fields_error
           eq_refl eq_refl eq_refl).
Defined.

Lemma action_posts_twice_when_data_run :
  exists st2,
    handle_action (respond 200 sample_envelope) sixty_seconds_event
                  (idle_state true (PDict []))
    = (st2, Ok tt)
    /\ (truthy (digest_value sample_digest) = true ->
        exists body,
          outbox st2
          = [Notify SiteMessage "60秒读懂世界" body;
             Notify SiteMessage "60秒读懂世界" body])
    /\ (truthy (digest_value sample_digest) = false -> outbox st2 = []).
Proof.
  exact (action_posts_twice_when_data
           (respond 200 sample_envelope) sixty_seconds_event
           (idle_state true (PDict []))
           (fst (__fetch_data (respond 200 sample_envelope)
                            (logger INFO "收到命令，获取60秒读懂世界数据..."
                                    (idle_state true (PDict [])))))
           eq_refl eq_refl eq_refl).
Defined.

Lemma unusable_data_is_cached_before_failing_run :
  exists st',
    __fetch_data (respond 200 (PDict [("code", PInt 200);
                                      ("data", PList [PInt 1])]))
                 (idle_state true (digest_value sample_digest))
    = (st', Ok false)
    /\ _data st' = PList [PInt 1]
    /\ _last_update st' = Some 1000
    /\ outbox st' = [].
Proof.
  exact (unusable_data_is_cached_before_failing
           (respond 200 (PDict [("code", PInt 200);
                                ("data", PList [PInt 1])]))
           (idle_state true (digest_value sample_digest))
           (mkResponse 200 (Ok (PDict [("code", PInt 200);
                                       ("data", PList [PInt 1])])) "body")
           [("code", PInt 200); ("data", PList [PInt 1])]
           (PInt 200) (PList [PInt 1])
           eq_refl eq_refl eq_refl eq_refl eq_refl eq_refl eq_refl eq_refl
           eq_refl).
Defined.

Lemma action_resends_cached_digest_on_failure_run :
  failed_fetch (respond 500 PNone)
  /\ exists st',
      handle_action (respond 500 PNone) sixty_seconds_event
                    (idle_state true (digest_value sample_digest))
      = (st', Ok tt)
      /\ _data st' = digest_value sample_digest
      /\ outbox st'
         = [Notify SiteMessage "60秒读懂世界" (digest_message sample_digest)].
Proof.
  assert (F : failed_fetch (respond 500 PNone)).
  { apply (non_200_status _ (mkResponse 500 (Ok PNone) "body"));
      [reflexivity | discriminate]. }
  split; [exact F|].
  exact (action_resends_cached_digest_on_failure
           (respond 500 PNone) sixty_seconds_event
           (idle_state true (digest_value sample_digest)) sample_digest
           eq_refl eq_refl F eq_refl).
Defined.

Lemma init_plugin_consumes_onlyonce_run :
  exists st',
    init_plugin (respond 200 sample_envelope) (Some one_shot_config)
                (idle_state false (PDict []))
    = (st', Ok tt)
    /\ _onlyonce st' = false
    /\ saved_config st'
       = [mkConfig (Some (_enabled st')) (Some (_cron st'))
                   (Some (_notify st')) (Some false) (Some (_cover st'))
                   []].
Proof.
  destruct (init_plugin_consumes_onlyonce
              (respond 200 sample_envelope) (Some one_shot_config)
              (idle_state false (PDict [])))
    as (st' & E & O & H).
  exists st'. split; [exact E|]. split; [exact O|].
  exact (proj1 (H one_shot_config eq_refl eq_refl)).
Defined.

Lemma enabled_plugin_registers_fetch_twice_run :
  exists st',
    init_plugin (respond 200 sample_envelope) (Some one_shot_config)
                (idle_state false (PDict []))
    = (st', Ok tt)
    /\ _scheduler st'
       = Some (mkScheduler [mkJob "60秒读懂世界" daily_trigger] true)
    /\ get_service st'
       = Ok [mkService "SixtySeconds" "60秒读懂世界定时服务" daily_trigger].
Proof.
  assert (Ne : "0 8 * * *" <> "") by discriminate.
  exact (enabled_plugin_registers_fetch_twice
           (respond 200 sample_envelope) one_shot_config
           (idle_state false (PDict [])) "0 8 * * *" daily_trigger
           eq_refl eq_refl Ne eq_refl).
Defined.

Lemma disabled_plugin_registers_nothing_run :
  exists st',
    init_plugin (respond 200 sample_envelope) (Some disabled_config)
                (idle_state false (PDict []))
    = (st', Ok tt)
    /\ get_state st' = false
    /\ _scheduler st' = None
    /\ get_service st' = Ok []
    /\ systemmessage st' = [].
Proof.
  exact (disabled_plugin_registers_nothing
           (respond 200 sample_envelope) disabled_config
           (idle_state false (PDict [])) eq_refl eq_refl).
Defined.

Lemma handle_action_quiet_without_notify_run :
  exists st',
    handle_action (respond 200 list_envelope) sixty_seconds_event
                  (idle_state false (PDict []))
    = (st', Ok tt)
    /\ outbox st' = [].
Proof.
  exact (handle_action_quiet_without_notify
           (respond 200 list_envelope) sixty_seconds_event
           (idle_state false (PDict [])) eq_refl).
Defined.

Lemma handle_action_ignores_other_events_run :
  handle_action (respond 200 sample_envelope) other_event
                (idle_state true (PDict []))
  = (idle_state true (PDict []), Ok tt).
Proof.
  apply (handle_action_ignores_other_events
           (respond 200 sample_envelope) other_event
           (idle_state true (PDict []))).
  intros ev d Hev Hd. injection Hev as <-. injection Hd as <-.
  discriminate.
Defined.

Lemma handle_action_raises_on_unusable_data_run :
  exists st',
    handle_action (respond 200 list_envelope) sixty_seconds_event
                  (idle_state true (PDict []))
    = (st', Raise (Exn AttributeError
                       "'list' object has no attribute 'get'"))
    /\ _data st' = PList [PInt 1].
Proof.
  exact (handle_action_raises_on_unusable_data
           (respond 200 list_envelope) sixty_seconds_event
           (idle_state true (PDict []))
           (mkResponse 200 (Ok list_envelope) "body")
           [("code", PInt 200); ("data", PList [PInt 1])]
           (PInt 200) (PList [PInt 1])
           eq_refl eq_refl eq_refl eq_refl eq_refl eq_refl eq_refl eq_refl
           eq_refl eq_refl).
Defined.


Lemma notify_of_any_object_run :
  outbox (fst (__send_notify (idle_state true (PDict partial_object))))
  = [Notify SiteMessage "60秒读懂世界"
            ("【60秒读懂世界 · D】" ++ nl ++ nl ++ nl
             ++ "1. 7" ++ nl ++ "2. b" ++ nl ++ nl ++ "查看详情: ")].
Proof.
  assert (Ne : partial_object <> []) by discriminate.
  exact (f_equal (fun p => outbox (fst p))
                 (notify_of_any_object
                    (idle_state true (PDict partial_object)) partial_object
                    [PInt 7; PStr "b"] eq_refl Ne eq_refl)).
Defined.

Lemma failed_request_log_line_run :
  log (fst (__fetch_data (respond 404 sample_envelope)
                         (idle_state false (PDict []))))
  = [(INFO, "开始获取60秒读懂世界数据...");
     (ERROR, "获取60秒读懂世界数据失败: 无响应")].
Proof.
  assert (Ne : 404 <> 200) by discriminate.
  exact (proj2 (proj2 (failed_request_log_line
                         (respond 404 sample_envelope)
                         (idle_state false (PDict []))))
               (mkResponse 404 (Ok sample_envelope) "body") eq_refl Ne).
Defined.

Lemma page_follows_successful_fetch_run :
  exists st' page,
    __fetch_data (respond 200 sample_envelope)
                 (idle_state false (PList [PInt 1]))
    = (st', Ok true)
    /\ get_page st' = Ok [page]
    /\ tree_texts page
       = [PStr "60秒读懂世界 · D"; PStr "T";
          PStr "1. a"; PStr "2. b"; PStr "3. c";
          PStr "4. d"; PStr "5. e"; PStr "6. f"; PStr "查看详情"].
Proof.
  exact (page_follows_successful_fetch
           (respond 200 sample_envelope) (idle_state false (PList [PInt 1]))
           (mkResponse 200 (Ok sample_envelope) "body")
           [("code", PInt 200); ("data", digest_value sample_digest)]
           (PInt 200) sample_digest
           eq_refl eq_refl eq_refl eq_refl eq_refl eq_refl).
Defined.

Lemma page_survives_failed_fetch_run :
  failed_fetch (respond 500 PNone)
  /\ get_page (fst (__fetch_data
                      (respond 500 PNone)
                      (idle_state false (digest_value sample_digest))))
     = get_page (idle_state false (digest_value sample_digest)).
Proof.
  assert (F : failed_fetch (respond 500 PNone)).
  { apply (non_200_status _ (mkResponse 500 (Ok PNone) "body"));
      [reflexivity | discriminate]. }
  split; [exact F|].
  exact (page_survives_failed_fetch
           (respond 500 PNone)
           (idle_state false (digest_value sample_digest)) F).
Defined.

Lemma repeated_fetch_notifies_again_run :
  exists st1 st2,
    __fetch_data (respond 200 sample_envelope) (idle_state true (PDict []))
    = (st1, Ok true)
    /\ __fetch_data (respond 200 sample_envelope) st1 = (st2, Ok true)
    /\ _data st2 = _data st1
    /\ outbox st2
       = [Notify SiteMessage "60秒读懂世界" (digest_message sample_digest);
          Notify SiteMessage "60秒读懂世界" (digest_message sample_digest)].
Proof.
  exact (repeated_fetch_notifies_again
           (respond 200 sample_envelope) (idle_state true (PDict []))
           (mkResponse 200 (Ok sample_envelope) "body")
           [("code", PInt 200); ("data", digest_value sample_digest)]
           (PInt 200) sample_digest
           eq_refl eq_refl eq_refl eq_refl eq_refl eq_refl eq_refl).
Defined.

Lemma fetch_data_returns_bool_run :
  exists st' b,
    __fetch_data (respond 200 sample_envelope) (idle_state true (PDict []))
    = (st', Ok b)
    /\ b = true
    /\ _data st' = digest_value sample_digest.
Proof.
  destruct (fetch_data_returns_bool
              (respond 200 sample_envelope) (idle_state true (PDict [])))
    as (st' & b & E & Iff & _ & _ & Acc & _).
  exists st', b. split; [exact E|]. split.
  - apply Iff. exists (digest_value sample_digest).
    split; [reflexivity | intros _; reflexivity].
  - exact (proj1 (Acc (digest_value sample_digest) eq_refl)).
Defined.

Lemma init_plugin_settings_run :
  exists st',
    init_plugin (respond 200 sample_envelope) (Some unknown_key_config)
                (idle_state true (PDict []))
    = (st', Ok tt)
    /\ settings st' = (false, "0 8 * * *", false, true).
Proof.
  exact (init_plugin_settings
           (respond 200 sample_envelope) (Some unknown_key_config)
           (idle_state true (PDict []))).
Defined.

(** ** Where the specification and the code part *)

(** C5, as stated, fails: the fetch caches a data object whose news is
    [null] as it comes, and then the page render raises. *)
Lemma render_raises_on_null_news :
  __fetch_data (respond 200 null_news_envelope) (idle_state false (PDict []))
  = (mkState true "0 8 * * *" false false true (Some 1000) None
             (PDict [("news", PNone)])
             [(INFO, "开始获取60秒读懂世界数据...");
              (INFO, "60秒读懂世界数据获取成功")] [] [] [],
     Ok true)
  /\ get_page (idle_state false (PDict [("news", PNone)]))
     = Raise (Exn TypeError "'NoneType' object is not iterable").
Proof.
  split; reflexivity.
Qed.

(** C6, as stated, fails: with the cover flag off the image's place in
    the page holds [None], so the page is not the page with the image
    element removed; it is the page with the image blanked. *)
Lemma cover_off_is_not_removal :
  get_page (set_cover false (idle_state false (digest_value sample_digest)))
  <> on_page remove_cover
       (get_page (set_cover true
                    (idle_state false (digest_value sample_digest))))
  /\ get_page
       (set_cover false (idle_state false (digest_value sample_digest)))
     = Ok [page_card (host := plain_host) (PStr "D") (PStr "T") PNone
                     [PStr "a"; PStr "b"; PStr "c";
                      PStr "d"; PStr "e"; PStr "f"] (PStr "L")].
Proof.
  split; [vm_compute; discriminate | reflexivity].
Qed.

(** C8, as stated, fails: a response of status 200 whose envelope has
    code 200 and a list for data is accepted and cached, and with the
    notify flag set the fetch then returns [False]. *)
Lemma accepted_fetch_returns_false :
  accepted_data (respond 200 list_envelope) = Some (PList [PInt 1])
  /\ __fetch_data (respond 200 list_envelope) (idle_state true (PDict []))
     = (mkState true "0 8 * * *" true false true (Some 1000) None
                (PList [PInt 1])
                [(INFO, "开始获取60秒读懂世界数据...");
                 (ERROR, "获取60秒读懂世界数据异常: 'list' object has no attribute 'get'")]
                [] [] [],
        Ok false).
Proof.
  split; reflexivity.
Qed.

(** C10, as stated, fails: on an envelope of code 200 without data the
    triggered fetch returns [True] with the notify flag set, and nothing
    is posted. *)
Lemma action_posts_nothing_on_empty_data :
  is_plugin_action sixty_seconds_event = true
  /\ _notify (idle_state true (digest_value sample_digest)) = true
  /\ snd (__fetch_data (respond 200 bare_envelope)
                     (logger INFO "收到命令，获取60秒读懂世界数据..."
                             (idle_state true (digest_value sample_digest))))
     = Ok true
  /\ outbox (fst (handle_action
                    (respond 200 bare_envelope) sixty_seconds_event
                    (idle_state true (digest_value sample_digest))))
     = [].
Proof.
  repeat split; reflexivity.
Qed.
